(** * Face registration / verification client: model and properties

  A shallow embedding of the React Native client code that scores
  detected faces, gates picture capture, calls the face
  registration / verification backend and stores the bearer token:

  - [Constants]               : the shared constants module
  - [AuthContext]             : the authentication provider
    (login, logout, registerFace, verifyFace, loadAuthState)
  - [FaceRegistrationScreen]  : checkFaceQuality, takePicture,
    handleFaceDetected, resetRegistration
  - [AuthScreen]              : captureImage, handleRegistration,
    handleVerification
  - [PrivacyDashboardScreen]  : loadPrivacySettings, updateConsent
  - [Client]                  : the handlers as one transition system,
    with counters over the trace of effects

  JavaScript numbers are held as exact rationals ([Q]), read as the
  values of the doubles the program handles.  Where the code computes
  with them and the result need not be representable (the centroid of
  a bounding box), the computation is done on IEEE-754 doubles, through
  [Double]; the module [Binary64] replays the score accumulation on
  doubles and shows that the comparisons against 0.7 come out the same.

  Component state is a record per component; asynchronous handlers are
  run to completion against explicit oracles for the environment (the
  camera, the network, AsyncStorage).  Every handler closes over the
  state snapshot of the render that created it, as React hooks do. *)

From Stdlib Require Import QArith Lqa Floats ZArith List Bool Lia Ascii String.
From stdpp Require Import gmap strings list.
Import ListNotations.

Local Open Scope string_scope.

(* ===================================================================== *)
(** ** JavaScript values used by the client *)
(* ===================================================================== *)

Module Js.

(** JS [a < b] on numbers. *)
Definition ltb (a b : Q) : bool := negb (Qle_bool b a).

(** Truthiness of a [string | null | undefined]. *)
Definition truthyStr (s : option string) : bool :=
  match s with
  | Some (String _ _) => true
  | Some EmptyString => false
  | None => false
  end.

(** Truthiness of a [boolean | undefined]. *)
Definition truthyBool (b : option bool) : bool :=
  match b with
  | Some true => true
  | _ => false
  end.

(** [s || ''] for [s : string | null]. *)
Definition orEmpty (s : option string) : string :=
  match s with
  | Some (String c r) => String c r
  | _ => ""
  end.

(** A thrown value: an [Error] instance with its message, or anything else. *)
Inductive Thrown :=
| ErrorObj (message : string)
| NonError.

(** The settled state of a promise. *)
Inductive Promise (A : Type) :=
| Resolved (a : A)
| Rejected (e : Thrown).
Arguments Resolved {A} a.
Arguments Rejected {A} e.

End Js.
Export Js.

(* ===================================================================== *)
(** ** Rationals and IEEE-754 doubles *)
(* ===================================================================== *)

Module Double.

(** The double nearest to the rational [q], ties to even: the double
    itself when [q] is the value of one, and the double JavaScript reads
    a decimal literal of value [q] as.  The quotient is developed to at
    least 56 bits, with one more bit that records a non-zero remainder,
    and rounded once to the 53 bits of a double. *)
Definition ofQ (q : Q) : float :=
  let n := Z.abs (Qnum q) in
  let d := Zpos (Qden q) in
  let k := Z.max 0 (56 + Z.log2 d - Z.log2 n) in
  let m := (n * 2 ^ k / d)%Z in
  let sticky := if ((n * 2 ^ k) mod d =? 0)%Z then 0%Z else 1%Z in
  SF2Prim (binary_normalize prec emax
             (Z.sgn (Qnum q) * (2 * m + sticky)) (- k - 1) false).

(** The rational value of a finite double (0 for NaN and the infinities). *)
Definition toQ (f : float) : Q :=
  match Prim2SF f with
  | S754_finite s m e => inject_Z (cond_Zopp s (Zpos m)) * Qpower 2 e
  | _ => 0
  end.

End Double.

(* ===================================================================== *)
(** ** Constants *)
(* ===================================================================== *)

Module Constants.

Definition AUTH_TOKEN_KEY : string := "@krish_ai:auth_token".
Definition USER_ID_KEY : string := "@krish_ai:user_id".

Record FaceVerificationConfig := {
  minConfidence : Q;
  livenessThreshold : Q;
  maxRetries : nat;
  captureInterval : nat
}.

Definition FACE_VERIFICATION : FaceVerificationConfig := {|
  minConfidence := 7 # 10;
  livenessThreshold := 8 # 10;
  maxRetries := 3;
  captureInterval := 500
|}.

Module ERROR_MESSAGES.
Definition FACE_REGISTRATION := "Face registration failed. Please try again.".
Definition FACE_VERIFICATION := "Face verification failed. Please try again.".
End ERROR_MESSAGES.

Module SUCCESS_MESSAGES.
Definition FACE_REGISTERED := "Face registered successfully!".
End SUCCESS_MESSAGES.

End Constants.
Export Constants.

(* ===================================================================== *)
(** ** Data model: component states, the environment, observable effects *)
(* ===================================================================== *)

Module Model.

(** Detected face geometry (the [Face] interface). *)
Record Point := { x : Q; y : Q }.
Record Size := { width : Q; height : Q }.
Record Bounds := { origin : Point; size : Size }.
Record Face := { bounds : Bounds }.

(** [AuthState] of the authentication provider. *)
Record AuthState := mkAuth {
  isAuthenticated : bool;
  token : option string;
  userId : option string;
  isLoading : bool
}.

(** State hooks of the face registration screen. *)
Record RegState := mkReg {
  hasPermission : option bool;
  isRegistering : bool;
  registrationSuccess : bool;
  isFaceCentered : bool;
  registrationStep : nat;
  errorMessage : option string;
  qualityScore : Q
}.

(** State hooks of the authentication screen. *)
Record AuthScreenState := mkAuthScreen {
  as_hasPermission : option bool;
  as_isRegistering : bool;
  isProcessing : bool
}.

(** [PrivacySettings] and the state hooks of the privacy dashboard. *)
Record PrivacySettings := mkSettings {
  consents : gmap string bool;
  retention_preferences : gmap string Z;
  data_usage_preferences : gmap string (list string)
}.

Record PrivacyState := mkPrivacy {
  settings : option PrivacySettings;
  loading : bool;
  saving : bool
}.

(** Backend endpoints reached by the client. *)
Inductive Endpoint :=
| FaceRegister     (* POST /api/face/register *)
| FaceVerify       (* POST /api/face/verify *)
| VerifyToken      (* GET  /verify-token *)
| PrivacyPut.      (* PUT  /api/privacy/settings/:userId *)

(** Effects a handler has on the outside world, in program order.
    [Scored] marks one run of checkFaceQuality (its setQualityScore). *)
Inductive Effect :=
| Fetch (ep : Endpoint) (user_id : option string) (image_data : string)
        (bearer : option string)
| ConsoleError (msg : string)
| Alert (title message : string)
| Scored (score : Q).

(** The body of a face endpoint's JSON answer, when it is an object.  The
    client reads [success] and [access_token] only; following the
    backend's contract [success] is a boolean and [access_token] a string,
    and either may be absent ([None], read as undefined). *)
Record FaceResult := mkResult {
  success : option bool;
  access_token : option string;
  error : option string
}.

Inductive Json :=
| JsonNull                     (* property access on it throws *)
| JsonObject (r : FaceResult).

Inductive Body :=
| NotJson                      (* response.json() rejects *)
| IsJson (j : Json).

Record Response := mkResponse { ok : bool; body : Body }.

(** Oracle for one [fetch]: it rejects, or a response arrives. *)
Inductive Net :=
| NetFails
| NetResponds (resp : Response).

(** Oracle for the two AsyncStorage writes (or removals) issued together
    under one Promise.all; each settles on its own. *)
Record StorageIO := mkIO { tokenKeyOk : bool; userIdKeyOk : bool }.

(** Oracle for [cameraRef.current.takePictureAsync]. *)
Inductive Capture :=
| Captured (base64 : string)
| CaptureThrows (e : Thrown).

(** The whole client. *)
Record App := mkApp {
  auth : AuthState;
  storage : gmap string string;
  trace : list Effect;
  reg : RegState;
  authScreen : AuthScreenState;
  privacy : PrivacyState
}.

Definition set_auth (a : AuthState) (s : App) : App :=
  mkApp a (storage s) (trace s) (reg s) (authScreen s) (privacy s).
Definition set_storage (m : gmap string string) (s : App) : App :=
  mkApp (auth s) m (trace s) (reg s) (authScreen s) (privacy s).
Definition emit (e : Effect) (s : App) : App :=
  mkApp (auth s) (storage s) (trace s ++ [e]) (reg s) (authScreen s) (privacy s).
Definition set_reg (r : RegState) (s : App) : App :=
  mkApp (auth s) (storage s) (trace s) r (authScreen s) (privacy s).
Definition set_authScreen (a : AuthScreenState) (s : App) : App :=
  mkApp (auth s) (storage s) (trace s) (reg s) a (privacy s).
Definition set_privacy (p : PrivacyState) (s : App) : App :=
  mkApp (auth s) (storage s) (trace s) (reg s) (authScreen s) p.

(** Asynchronous computations: state passing with promise results. *)
Definition Async (A : Type) : Type := App -> Promise A * App.

Definition ret {A} (a : A) : Async A := fun s => (Resolved a, s).
Definition throw {A} (e : Thrown) : Async A := fun s => (Rejected e, s).
Definition bind {A B} (m : Async A) (k : A -> Async B) : Async B :=
  fun s => match m s with
           | (Resolved a, s') => k a s'
           | (Rejected e, s') => (Rejected e, s')
           end.
Definition tryCatch {A} (m : Async A) (h : Thrown -> Async A) : Async A :=
  fun s => match m s with
           | (Resolved a, s') => (Resolved a, s')
           | (Rejected e, s') => h e s'
           end.
Definition tryFinally {A} (m : Async A) (f : Async unit) : Async A :=
  fun s => let '(r, s') := m s in (r, snd (f s')).
Definition modify (f : App -> App) : Async unit := fun s => (Resolved tt, f s).
Definition get : Async App := fun s => (Resolved s, s).

End Model.
Export Model.

Declare Scope async_scope.
Delimit Scope async_scope with async.
Notation "'await' x <- m ; k" := (bind m (fun x => k))
  (at level 10, x name, m at level 100, k at level 200) : async_scope.
Notation "'exec' m ; k" := (bind m (fun _ => k))
  (at level 10, m at level 100, k at level 200) : async_scope.
Local Open Scope async_scope.

(* ===================================================================== *)
(** ** AuthContext: the authentication provider *)
(* ===================================================================== *)

Module AuthContext.

Definition initialState : AuthState := mkAuth false None None true.

(** [{ ...initialState, isLoading: false }] *)
Definition signedOut : AuthState := mkAuth false None None false.

Definition setState (a : AuthState) : Async unit := modify (set_auth a).

Definition consoleError (msg : string) : Async unit :=
  modify (emit (ConsoleError msg)).

(** One [fetch]: the request leaves, then the oracle settles it. *)
Definition fetch (net : Net) (ep : Endpoint) (uid : option string)
    (img : string) (bearer : option string) : Async Response :=
  exec modify (emit (Fetch ep uid img bearer));
  match net with
  | NetFails => throw (ErrorObj "Network request failed")
  | NetResponds r => ret r
  end.

(** [response.json()] *)
Definition json (r : Response) : Async Json :=
  match body r with
  | NotJson => throw (ErrorObj "JSON Parse error")
  | IsJson j => ret j
  end.

(** The property read [result.f]; a TypeError when [result] is null. *)
Definition field {A} (f : FaceResult -> A) (j : Json) : Async A :=
  match j with
  | JsonNull => throw (ErrorObj "Cannot read property of null")
  | JsonObject r => ret (f r)
  end.

Definition setItem (settles : bool) (key value : string) : Async unit :=
  if settles
  then modify (fun s => set_storage (<[key := value]> (storage s)) s)
  else throw (ErrorObj "AsyncStorage.setItem failed").

Definition removeItem (settles : bool) (key : string) : Async unit :=
  if settles
  then modify (fun s => set_storage (delete key (storage s)) s)
  else throw (ErrorObj "AsyncStorage.removeItem failed").

Definition getItem (settles : bool) (key : string) : Async (option string) :=
  if settles
  then (fun s => (Resolved (storage s !! key), s))
  else throw (ErrorObj "AsyncStorage.getItem failed").

(** [Promise.all([p, q])]: both operations are started; the result
    rejects when either does. *)
Definition all2 {A B} (p : Async A) (q : Async B) : Async (A * B) :=
  fun s =>
    let '(ra, s1) := p s in
    let '(rb, s2) := q s1 in
    match ra, rb with
    | Resolved a, Resolved b => (Resolved (a, b), s2)
    | Rejected e, _ => (Rejected e, s2)
    | Resolved _, Rejected e => (Rejected e, s2)
    end.

Definition login (io : StorageIO) (tok uid : string) : Async unit :=
  tryCatch
    (exec all2 (setItem (tokenKeyOk io) AUTH_TOKEN_KEY tok)
               (setItem (userIdKeyOk io) USER_ID_KEY uid);
     setState (mkAuth true (Some tok) (Some uid) false))
    (fun _ =>
       exec consoleError "Error saving auth state:";
       throw (ErrorObj "Failed to save authentication state")).

Definition logout (io : StorageIO) : Async unit :=
  tryCatch
    (exec all2 (removeItem (tokenKeyOk io) AUTH_TOKEN_KEY)
               (removeItem (userIdKeyOk io) USER_ID_KEY);
     setState (mkAuth false None None false))
    (fun _ =>
       exec consoleError "Error clearing auth state:";
       throw (ErrorObj "Failed to clear authentication state")).

Definition loadAuthState (io : StorageIO) (net : Net) : Async unit :=
  tryCatch
    (await p <- all2 (getItem (tokenKeyOk io) AUTH_TOKEN_KEY)
                     (getItem (userIdKeyOk io) USER_ID_KEY);
     match p with
     | (Some (String c r), Some (String c' r')) =>
         await response <- fetch net VerifyToken None "" (Some (String c r));
         if ok response
         then setState (mkAuth true (Some (String c r)) (Some (String c' r')) false)
         else setState signedOut
     | _ => setState signedOut
     end)
    (fun _ =>
       exec consoleError "Error loading auth state:";
       setState signedOut).

(** The [Authorization] header is spread in only when [state.token] is
    truthy. *)
Definition bearerOf (a : AuthState) : option string :=
  if truthyStr (token a) then token a else None.

Definition registerFace (net : Net) (imageData : string) : Async (option bool) :=
  await st <- get;
  tryCatch
    (await response <- fetch net FaceRegister (userId (auth st)) imageData
                             (bearerOf (auth st));
     await result <- json response;
     field success result)
    (fun _ =>
       exec consoleError "Error registering face:";
       ret (Some false)).

Definition verifyFace (net : Net) (io : StorageIO) (imageData : string)
    : Async bool :=
  await st <- get;
  tryCatch
    (await response <- fetch net FaceVerify (userId (auth st)) imageData None;
     await result <- json response;
     await succ <- field success result;
     await tok <- field access_token result;
     match succ, tok with
     | Some true, Some (String c r) =>
         exec login io (String c r) (orEmpty (userId (auth st)));
         ret true
     | _, _ => ret false
     end)
    (fun _ =>
       exec consoleError "Error verifying face:";
       ret false).

End AuthContext.

(* ===================================================================== *)
(** ** FaceRegistrationScreen *)
(* ===================================================================== *)

Module FaceRegistrationScreen.

Local Open Scope Q_scope.

(** The [useState] initial values. *)
Definition initialReg : RegState := mkReg None false false false 0 None 0.

(** The state setters act on the latest state of the component. *)
Definition onReg (f : RegState -> RegState) : Async unit :=
  modify (fun s => set_reg (f (reg s)) s).

Definition setIsRegistering (b : bool) : Async unit :=
  onReg (fun r => mkReg (hasPermission r) b (registrationSuccess r)
    (isFaceCentered r) (registrationStep r) (errorMessage r) (qualityScore r)).
Definition setRegistrationSuccess (b : bool) : Async unit :=
  onReg (fun r => mkReg (hasPermission r) (isRegistering r) b
    (isFaceCentered r) (registrationStep r) (errorMessage r) (qualityScore r)).
Definition setIsFaceCentered (b : bool) : Async unit :=
  onReg (fun r => mkReg (hasPermission r) (isRegistering r) (registrationSuccess r)
    b (registrationStep r) (errorMessage r) (qualityScore r)).
Definition setRegistrationStep (n : nat) : Async unit :=
  onReg (fun r => mkReg (hasPermission r) (isRegistering r) (registrationSuccess r)
    (isFaceCentered r) n (errorMessage r) (qualityScore r)).
Definition setErrorMessage (m : option string) : Async unit :=
  onReg (fun r => mkReg (hasPermission r) (isRegistering r) (registrationSuccess r)
    (isFaceCentered r) (registrationStep r) m (qualityScore r)).
Definition setQualityScore (q : Q) : Async unit :=
  onReg (fun r => mkReg (hasPermission r) (isRegistering r) (registrationSuccess r)
    (isFaceCentered r) (registrationStep r) (errorMessage r) q).

Definition alert (title message : string) : Async unit :=
  modify (emit (Alert title message)).

Definition resetRegistration : Async unit :=
  exec setIsRegistering false;
  exec setRegistrationSuccess false;
  exec setRegistrationStep 0;
  exec setErrorMessage None;
  setQualityScore 0.

Definition minSize : Q := 100.
Definition maxSize : Q := 240.

(** [width > minSize && width < maxSize && height > minSize && height < maxSize] *)
Definition sizeInRange (face : Face) : bool :=
  let w := width (size (bounds face)) in
  let h := height (size (bounds face)) in
  ltb minSize w && ltb w maxSize && ltb minSize h && ltb h maxSize.

(** The accumulation of [score] in checkFaceQuality, from the outcome
    of its two tests. *)
Definition accumulate (sizeOk centered : bool) : Q :=
  let score := 0 in
  let score := if sizeOk then score + (4 # 10) else score in
  let score := if centered then score + (3 # 10) else score in
  score + (3 # 10).

(** [centered] is the [isFaceCentered] that the function's closure sees. *)
Definition compositeScore (centered : bool) (face : Face) : Q :=
  accumulate (sizeInRange face) centered.

(** checkFaceQuality, created by the render whose state is [snap]. *)
Definition checkFaceQuality (snap : RegState) (face : Face) : Async bool :=
  let score := compositeScore (isFaceCentered snap) face in
  exec modify (emit (Scored score));
  exec setQualityScore score;
  ret (ltb (7 # 10) score).

(** [face.bounds.origin.x + face.bounds.size.width / 2], on doubles: the
    quotient is rounded, then the sum. *)
Definition centerX (face : Face) : float :=
  (Double.ofQ (x (origin (bounds face)))
   + Double.ofQ (width (size (bounds face))) / 2)%float.
(** [face.bounds.origin.y + face.bounds.size.height / 2], on doubles. *)
Definition centerY (face : Face) : float :=
  (Double.ofQ (y (origin (bounds face)))
   + Double.ofQ (height (size (bounds face))) / 2)%float.

(** The value handleFaceDetected passes to setIsFaceCentered; [a > b] and
    [a < b] are the comparisons of doubles. *)
Definition faceCentered (face : Face) : bool :=
  let isXCentered := (160 <? centerX face)%float && (centerX face <? 240)%float in
  let isYCentered := (260 <? centerY face)%float && (centerY face <? 340)%float in
  isXCentered && isYCentered.

(** handleFaceDetected and the checkFaceQuality it calls are closures of
    one render, whose state is [snap]: the value given to
    setIsFaceCentered shows in the state of the next render, while
    checkFaceQuality still reads [isFaceCentered] of [snap]. *)
Definition handleFaceDetected (faces : list Face) : Async unit :=
  await snap <- get;
  match faces with
  | face :: _ =>
      exec setIsFaceCentered (faceCentered face);
      await passed <- checkFaceQuality (reg snap) face;
      ret tt
  | [] =>
      exec setIsFaceCentered false;
      setQualityScore 0
  end.

Definition takePictureAsync (cap : Capture) : Async string :=
  match cap with
  | Captured base64 => ret base64
  | CaptureThrows e => throw e
  end.

(** [camera] is [cameraRef.current]: [None] when no camera is mounted,
    otherwise what its takePictureAsync will do.  The success animation
    is a matter of rendering and is left out. *)
Definition takePicture (camera : option Capture) (net : Net) : Async unit :=
  await snap <- get;
  match camera with
  | None => ret tt
  | Some cap =>
      if negb (isFaceCentered (reg snap)) then ret tt
      else
        tryFinally
          (tryCatch
             (exec setIsRegistering true;
              exec setRegistrationStep 1;
              exec setErrorMessage None;
              await photo <- takePictureAsync cap;
              exec setRegistrationStep 2;
              await succ <- AuthContext.registerFace net
                              ("data:image/jpeg;base64," ++ photo);
              if truthyBool succ
              then
                exec setRegistrationStep 3;
                exec setRegistrationSuccess true;
                alert "Success"
                  "Face registered successfully! You can now use face verification for authentication."
              else ret tt)
             (fun e =>
                let errorMessage :=
                  match e with
                  | ErrorObj m => m
                  | NonError => "Failed to register face. Please try again."
                  end in
                exec setErrorMessage (Some errorMessage);
                alert "Error" errorMessage))
          (setIsRegistering false)
  end.

End FaceRegistrationScreen.

(* ===================================================================== *)
(** ** AuthScreen *)
(* ===================================================================== *)

Module AuthScreen.

Definition initialScreen : AuthScreenState := mkAuthScreen None false false.

Definition setIsProcessing (b : bool) : Async unit :=
  modify (fun s => set_authScreen
    (mkAuthScreen (as_hasPermission (authScreen s)) (as_isRegistering (authScreen s)) b) s).
Definition setIsRegistering (b : bool) : Async unit :=
  modify (fun s => set_authScreen
    (mkAuthScreen (as_hasPermission (authScreen s)) b (isProcessing (authScreen s))) s).

Definition alert (title message : string) : Async unit :=
  modify (emit (Alert title message)).

Definition captureImage (camera : option Capture) : Async (option string) :=
  match camera with
  | None => ret None
  | Some cap =>
      tryCatch
        (await photo <- FaceRegistrationScreen.takePictureAsync cap;
         ret (Some ("data:image/jpeg;base64," ++ photo)))
        (fun _ =>
           exec AuthContext.consoleError "Error capturing image:";
           ret None)
  end.

Definition handleRegistration (camera : option Capture) (net : Net) : Async unit :=
  exec setIsProcessing true;
  tryFinally
    (tryCatch
       (await imageData <- captureImage camera;
        match imageData with
        | None => alert "Error" ERROR_MESSAGES.FACE_REGISTRATION
        | Some img =>
            await succ <- AuthContext.registerFace net img;
            if truthyBool succ
            then
              exec alert "Success" SUCCESS_MESSAGES.FACE_REGISTERED;
              setIsRegistering false
            else alert "Error" ERROR_MESSAGES.FACE_REGISTRATION
        end)
       (fun _ =>
          exec AuthContext.consoleError "Registration error:";
          alert "Error" ERROR_MESSAGES.FACE_REGISTRATION))
    (setIsProcessing false).

Definition handleVerification (camera : option Capture) (net : Net)
    (io : StorageIO) : Async unit :=
  exec setIsProcessing true;
  tryFinally
    (tryCatch
       (await imageData <- captureImage camera;
        match imageData with
        | None => alert "Error" ERROR_MESSAGES.FACE_VERIFICATION
        | Some img =>
            await succ <- AuthContext.verifyFace net io img;
            if negb succ
            then alert "Error" ERROR_MESSAGES.FACE_VERIFICATION
            else ret tt
        end)
       (fun _ =>
          exec AuthContext.consoleError "Verification error:";
          alert "Error" ERROR_MESSAGES.FACE_VERIFICATION))
    (setIsProcessing false).

End AuthScreen.

(* ===================================================================== *)
(** ** PrivacyDashboardScreen *)
(* ===================================================================== *)

Module PrivacyDashboardScreen.

Definition setSaving (b : bool) : Async unit :=
  modify (fun s => set_privacy
    (mkPrivacy (settings (privacy s)) (loading (privacy s)) b) s).
Definition setSettings (p : PrivacySettings) : Async unit :=
  modify (fun s => set_privacy
    (mkPrivacy (Some p) (loading (privacy s)) (saving (privacy s))) s).

Definition setLoading (b : bool) : Async unit :=
  modify (fun s => set_privacy
    (mkPrivacy (settings (privacy s)) b (saving (privacy s))) s).

(** loadPrivacySettings; [data] is the answer of the GET, [None] when
    the request fails. *)
Definition loadPrivacySettings (data : option PrivacySettings) : Async unit :=
  tryFinally
    (tryCatch
       (match data with
        | Some d => setSettings d
        | None => throw (ErrorObj "Request failed")
        end)
       (fun _ =>
          modify (emit (Alert "Error" "Failed to load privacy settings"))))
    (setLoading false).

(** [apiClient.put]: the request leaves, then settles as the oracle says. *)
Definition apiPut (settles : bool) : Async unit :=
  await s <- get;
  exec modify (emit (Fetch PrivacyPut (userId (auth s)) "" None));
  if settles then ret tt else throw (ErrorObj "Request failed").

Definition updateConsent (putSettles : bool) (category : string) (value : bool)
    : Async unit :=
  await snap <- get;
  match settings (privacy snap) with
  | None => ret tt
  | Some current =>
      tryFinally
        (tryCatch
           (exec setSaving true;
            let updatedSettings :=
              mkSettings (<[category := value]> (consents current))
                         (retention_preferences current)
                         (data_usage_preferences current) in
            exec apiPut putSettles;
            setSettings updatedSettings)
           (fun _ =>
              modify (emit (Alert "Error" "Failed to update consent settings"))))
        (setSaving false)
  end.

End PrivacyDashboardScreen.

(* ===================================================================== *)
(** ** The client as a transition system over user and camera events *)
(* ===================================================================== *)

Module Client.

Inductive Action :=
| FacesDetected (faces : list Face)
| TakePicture (camera : option Capture) (net : Net)
| ResetRegistration
| HandleRegistration (camera : option Capture) (net : Net)
| HandleVerification (camera : option Capture) (net : Net) (io : StorageIO)
| Logout (io : StorageIO)
| LoadAuthState (io : StorageIO) (net : Net)
| LoadPrivacySettings (data : option PrivacySettings)
| UpdateConsent (putSettles : bool) (category : string) (value : bool).

Definition handler (a : Action) : Async unit :=
  match a with
  | FacesDetected faces => FaceRegistrationScreen.handleFaceDetected faces
  | TakePicture camera net => FaceRegistrationScreen.takePicture camera net
  | ResetRegistration => FaceRegistrationScreen.resetRegistration
  | HandleRegistration camera net => AuthScreen.handleRegistration camera net
  | HandleVerification camera net io => AuthScreen.handleVerification camera net io
  | Logout io => AuthContext.logout io
  | LoadAuthState io net => AuthContext.loadAuthState io net
  | LoadPrivacySettings data => PrivacyDashboardScreen.loadPrivacySettings data
  | UpdateConsent putSettles category value =>
      PrivacyDashboardScreen.updateConsent putSettles category value
  end.

Definition step (a : Action) (s : App) : App := snd (handler a s).

Definition steps (acts : list Action) (s : App) : App :=
  fold_left (fun s a => step a s) acts s.

Definition initialApp : App :=
  mkApp AuthContext.initialState ∅ []
        FaceRegistrationScreen.initialReg
        AuthScreen.initialScreen
        (mkPrivacy None true false).

(** Observations on the effect trace. *)
Definition isMatcherCall (e : Effect) : bool :=
  match e with
  | Fetch FaceRegister _ _ _ | Fetch FaceVerify _ _ _ => true
  | _ => false
  end.

Definition isScorerRun (e : Effect) : bool :=
  match e with
  | Scored _ => true
  | _ => false
  end.

Fixpoint countIf (p : Effect -> bool) (l : list Effect) : nat :=
  match l with
  | [] => 0
  | e :: l' => (if p e then 1 else 0) + countIf p l'
  end.

(** Number of requests sent to the face endpoints so far. *)
Definition matcherCalls (s : App) : nat := countIf isMatcherCall (trace s).

(** Number of runs of checkFaceQuality so far. *)
Definition scorerRuns (s : App) : nat := countIf isScorerRun (trace s).

(** [m] takes every state to one related to it by [R]. *)
Definition respects (R : App -> App -> Prop) {A} (m : Async A) : Prop :=
  forall s, R s (snd (m s)).

(** The effects recorded in [s] are still there, in order, in [s']. *)
Definition traceGrows (s s' : App) : Prop :=
  exists l, trace s' = (trace s ++ l)%list.

(** A property of the provider state that carries over from [s] to [s']. *)
Definition keepsAuth (P : AuthState -> Prop) (s s' : App) : Prop :=
  P (auth s) -> P (auth s').


End Client.

(* ===================================================================== *)
(** ** The score accumulation on IEEE-754 doubles *)
(* ===================================================================== *)

Set Warnings "-inexact-float".

Module Binary64.

Local Open Scope float_scope.

Definition accumulate (sizeOk centered : bool) : float :=
  let score := 0 in
  let score := if sizeOk then score + 0.4 else score in
  let score := if centered then score + 0.3 else score in
  score + 0.3.

(** [score > 0.7] *)
Definition passes (sizeOk centered : bool) : bool :=
  PrimFloat.ltb 0.7 (accumulate sizeOk centered).

End Binary64.

(* ===================================================================== *)
(** ** Readings of the specification, for comparison with the code *)
(* ===================================================================== *)

Module Spec.

Local Open Scope Q_scope.

(** Follows the specification: the size term is awarded when width and
    height both lie in the range 100 to 240, ends included. *)
Definition sizeWithinRange (face : Face) : bool :=
  let w := width (size (bounds face)) in
  let h := height (size (bounds face)) in
  Qle_bool 100 w && Qle_bool w 240 && Qle_bool 100 h && Qle_bool h 240.

(** Follows the specification: weighted sum of the three terms. *)
Definition weightedSum (sizeTerm centeringTerm : bool) : Q :=
  (4 # 10) * (if sizeTerm then 1 else 0)
  + (3 # 10) * (if centeringTerm then 1 else 0)
  + (3 # 10) * 1.

(** Follows the specification: a bounding box of zero area. *)
Definition zeroArea (face : Face) : Prop :=
  width (size (bounds face)) * height (size (bounds face)) == 0.

(** Follows the specification: the centroid of the bounding box. *)
Definition centroidX (face : Face) : Q :=
  x (origin (bounds face)) + width (size (bounds face)) / 2.
Definition centroidY (face : Face) : Q :=
  y (origin (bounds face)) + height (size (bounds face)) / 2.

(** Follows the specification: the centroid lies inside a central
    rectangle whose bounds are the fractions [lx hx] of the frame width
    and [ly hy] of the frame height. *)
Definition centeredInBand (lx hx ly hy : Q) (frameW frameH : Q) (face : Face) : bool :=
  ltb (lx * frameW) (centroidX face)
  && ltb (centroidX face) (hx * frameW)
  && ltb (ly * frameH) (centroidY face)
  && ltb (centroidY face) (hy * frameH).

(** Follows the specification: the consent gate denies when the
    required flag is missing or false. *)
Definition consentDenied (p : PrivacyState) : bool :=
  match settings p with
  | None => true
  | Some st =>
      match consents st !! "facial_data" with
      | Some true => false
      | _ => true
      end
  end.

(** Follows the specification: the score it assigns to a face, with the
    size term as above and the centering term from the evaluation of this
    very face. *)
Definition specScore (face : Face) : Q :=
  weightedSum (sizeWithinRange face) (FaceRegistrationScreen.faceCentered face).

End Spec.

(* ===================================================================== *)
(** ** Sample inputs *)
(* ===================================================================== *)

Module Samples.

Local Open Scope Q_scope.

Definition mkFace (ox oy w h : Q) : Face :=
  Build_Face (Build_Bounds (Build_Point ox oy) (Build_Size w h)).

(** A centred face that is too small: 50 by 50 around (200, 300). *)
Definition smallCentredFace : Face := mkFace 175 275 50 50.

(** A well-sized face away from the centre. *)
Definition offCentreFace : Face := mkFace 0 0 150 150.

(** The backend accepts and hands out the access token [tok]. *)
Definition accept (okf : bool) (tok : string) (err : option string) : Net :=
  NetResponds (mkResponse okf (IsJson (JsonObject
    (mkResult (Some true) (Some tok) err)))).

(** The backend answers with a definitive refusal. *)
Definition rejection (okf : bool) (tok err : option string) : Net :=
  NetResponds (mkResponse okf (IsJson (JsonObject
    (mkResult (Some false) tok err)))).

Definition noMatch : Net :=
  rejection true None (Some "Face verification failed").

(** The body of the answer is not JSON. *)
Definition notJson (okf : bool) : Net := NetResponds (mkResponse okf NotJson).

(** The body of the answer is the JSON value null. *)
Definition jsonNull (okf : bool) : Net :=
  NetResponds (mkResponse okf (IsJson JsonNull)).

(** A privacy record in which the facial-data consent is refused. *)
Definition refusedConsent : PrivacySettings :=
  mkSettings {[ "facial_data" := false ]} ∅ ∅.

End Samples.

(* ===================================================================== *)
(** ** Components whose hooks hold a state of their own *)
(* ===================================================================== *)

Module Component.

(** A handler of a component with hook state [S], run beside the rest of
    the client: the state setters act on [S], everything else on [App]. *)
Definition Comp (S A : Type) : Type := S -> App -> Promise A * S * App.

Definition ret {S A} (a : A) : Comp S A := fun st s => (Resolved a, st, s).
Definition throw {S A} (e : Thrown) : Comp S A := fun st s => (Rejected e, st, s).
Definition bind {S A B} (m : Comp S A) (k : A -> Comp S B) : Comp S B :=
  fun st s => match m st s with
              | (Resolved a, st', s') => k a st' s'
              | (Rejected e, st', s') => (Rejected e, st', s')
              end.
Definition tryCatch {S A} (m : Comp S A) (h : Thrown -> Comp S A) : Comp S A :=
  fun st s => match m st s with
              | (Resolved a, st', s') => (Resolved a, st', s')
              | (Rejected e, st', s') => h e st' s'
              end.
Definition tryFinally {S A} (m : Comp S A) (f : Comp S unit) : Comp S A :=
  fun st s =>
    let '(r, st1, s1) := m st s in
    let '(_, st2, s2) := f st1 s1 in
    (r, st2, s2).
Definition setState {S} (f : S -> S) : Comp S unit :=
  fun st s => (Resolved tt, f st, s).
Definition getState {S} : Comp S S := fun st s => (Resolved st, st, s).

(** An operation on the rest of the client, called from the component. *)
Definition lift {S A} (m : Async A) : Comp S A :=
  fun st s => let '(r, s') := m s in (r, st, s').

Definition resultOf {S A} (out : Promise A * S * App) : Promise A := fst (fst out).
Definition stateOf {S A} (out : Promise A * S * App) : S := snd (fst out).
Definition appOf {S A} (out : Promise A * S * App) : App := snd out.

End Component.

Declare Scope comp_scope.
Delimit Scope comp_scope with comp.
Notation "'await' x <- m ; k" := (Component.bind m (fun x => k))
  (at level 10, x name, m at level 100, k at level 200) : comp_scope.
Notation "'exec' m ; k" := (Component.bind m (fun _ => k))
  (at level 10, m at level 100, k at level 200) : comp_scope.

(* ===================================================================== *)
(** ** ThemeContext: the theme provider *)
(* ===================================================================== *)

Module ThemeContext.

Import Component.
Local Open Scope comp_scope.

(** [THEME_KEY] of the constants module. *)
Definition THEME_KEY : string := "@krish_ai:theme".

(** [isDark: theme === 'dark'] *)
Definition isDark (theme : string) : bool := String.eqb theme "dark".

(** The provider's state is the theme, a string. *)
Definition loadTheme (readResolves : bool) : Comp string unit :=
  tryCatch
    (await savedTheme <- lift (AuthContext.getItem readResolves THEME_KEY);
     match savedTheme with
     | Some (String c r) => setState (fun _ => String c r)
     | _ => ret tt
     end)
    (fun _ => lift (AuthContext.consoleError "Error loading theme:")).

Definition toggleTheme (writeResolves : bool) : Comp string unit :=
  await theme <- getState;
  let newTheme := if String.eqb theme "light" then "dark" else "light" in
  exec setState (fun _ => newTheme);
  tryCatch
    (lift (AuthContext.setItem writeResolves THEME_KEY newTheme))
    (fun _ => lift (AuthContext.consoleError "Error saving theme:")).

End ThemeContext.

(* ===================================================================== *)
(** ** App: the root component and its initializeApp *)
(* ===================================================================== *)

Module RootApp.

Import Component.
Local Open Scope comp_scope.

Record RootState := mkRoot {
  isLoading : bool;
  isDarkMode : bool;
  isAuthenticated : bool
}.

(** The [useState] initial values. *)
Definition initialRoot : RootState := mkRoot true false false.

Definition setIsLoading (b : bool) : Comp RootState unit :=
  setState (fun r => mkRoot b (isDarkMode r) (isAuthenticated r)).
Definition setIsDarkMode (b : bool) : Comp RootState unit :=
  setState (fun r => mkRoot (isLoading r) b (isAuthenticated r)).
Definition setIsAuthenticated (b : bool) : Comp RootState unit :=
  setState (fun r => mkRoot (isLoading r) (isDarkMode r) b).

(** The key initializeApp reads the token from. *)
Definition authTokenKey : string := "authToken".

Definition initializeApp (themeRead authRead : bool) (net : Net)
    : Comp RootState unit :=
  tryFinally
    (tryCatch
       (await savedTheme <- lift (AuthContext.getItem themeRead ThemeContext.THEME_KEY);
        exec match savedTheme with
             | Some (String c r) => setIsDarkMode (String.eqb (String c r) "dark")
             | _ => ret tt
             end;
        await authToken <- lift (AuthContext.getItem authRead authTokenKey);
        match authToken with
        | Some (String c r) =>
            await response <- lift (AuthContext.fetch net VerifyToken None ""
                                      (Some (String c r)));
            setIsAuthenticated (ok response)
        | _ => ret tt
        end)
       (fun _ => lift (AuthContext.consoleError "Initialization error:")))
    (setIsLoading false).

End RootApp.

(* ===================================================================== *)
(** ** HomeScreen: the message list and processCommand *)
(* ===================================================================== *)

Module HomeScreen.

Import Component.
Local Open Scope comp_scope.

Record Message := mkMessage { text : string; isUser : bool }.

Record HomeState := mkHome {
  isListening : bool;
  messages : list Message;
  isProcessing : bool
}.

Definition initialHome : HomeState := mkHome false [] false.

(** [ERROR_MESSAGES.UNKNOWN] of the constants module. *)
Definition UNKNOWN : string := "An unknown error occurred. Please try again.".

(** What the awaited [processTextCommand(command)] settles to: it rejects
    (the request failed, the answer was not ok or not JSON), or resolves
    to the parsed answer: null, or a value whose [response] property is a
    string or is absent ([None]; so reads any answer without that field). *)
Inductive CommandJson :=
| CommandNull
| CommandObject (response : option string).

Definition setIsListening (b : bool) : Comp HomeState unit :=
  setState (fun h => mkHome b (messages h) (isProcessing h)).
Definition setIsProcessing (b : bool) : Comp HomeState unit :=
  setState (fun h => mkHome (isListening h) (messages h) b).

(** [setMessages(prev => [...prev, { text, isUser }])]; the scrolling that
    follows is a matter of rendering and is left out. *)
Definition addMessage (text : string) (isUser : bool) : Comp HomeState unit :=
  setState (fun h => mkHome (isListening h)
                            (messages h ++ [mkMessage text isUser])
                            (isProcessing h)).

Definition processTextCommand (outcome : Promise CommandJson) : Comp HomeState CommandJson :=
  match outcome with
  | Resolved j => ret j
  | Rejected e => throw e
  end.

(** The property read [response.response]; a TypeError on null. *)
Definition responseOf (j : CommandJson) : Comp HomeState (option string) :=
  match j with
  | CommandNull => throw (ErrorObj "Cannot read property of null")
  | CommandObject r => ret r
  end.

Definition processCommand (outcome : Promise CommandJson) (command : string)
    : Comp HomeState unit :=
  tryFinally
    (tryCatch
       (exec setIsProcessing true;
        await response <- processTextCommand outcome;
        await reply <- responseOf response;
        match reply with
        | Some (String c r) => addMessage (String c r) false
        | _ => ret tt
        end)
       (fun _ =>
          exec lift (AuthContext.consoleError "Error processing command:");
          addMessage UNKNOWN false))
    (setIsProcessing false).

(** [Voice.onSpeechResults]; [value] is [event.value]. *)
Definition onSpeechResults (value : option (list string))
    (outcome : Promise CommandJson) : Comp HomeState unit :=
  match value with
  | Some (String c r :: _) =>
      exec addMessage (String c r) true;
      processCommand outcome (String c r)
  | _ => ret tt
  end.

(** [Voice.onSpeechError] *)
Definition onSpeechError : Comp HomeState unit :=
  exec lift (AuthContext.consoleError "Speech recognition error:");
  setIsListening false.

End HomeScreen.

(* ===================================================================== *)
(** ** The indicators drawn by the face registration screen *)
(* ===================================================================== *)

Module Indicators.

Local Open Scope Q_scope.

(** [const dots = [0.2, 0.4, 0.6, 0.8, 1.0]] *)
Definition dots : list Q := [2 # 10; 4 # 10; 6 # 10; 8 # 10; 1].

(** renderQualityIndicator: which dots get the active style,
    [qualityScore >= threshold]. *)
Definition renderQualityIndicator (r : RegState) : list bool :=
  map (fun threshold => Qle_bool threshold (qualityScore r)) dots.

(** [const steps = [0, 1, 2, 3]] *)
Definition stepMarks : list nat := [0; 1; 2; 3]%nat.

(** renderStepIndicator: [registrationStep >= step]. *)
Definition renderStepIndicator (r : RegState) : list bool :=
  map (fun step => Nat.leb step (registrationStep r)) stepMarks.

(** How many marks of an indicator are active. *)
Definition lit (marks : list bool) : nat :=
  length (List.filter (fun b => b) marks).

(** The quality dots on doubles, for the score accumulated from the
    outcome of the two tests of checkFaceQuality. *)
Definition binary64Dots (sizeOk centered : bool) : list bool :=
  map (fun threshold => PrimFloat.leb threshold (Binary64.accumulate sizeOk centered))
      [0.2; 0.4; 0.6; 0.8; 1.0]%float.

End Indicators.

(* ===================================================================== *)
(** ** Further observations on the trace and on the oracles *)
(* ===================================================================== *)

Module Observe.

Definition isAlert (e : Effect) : bool :=
  match e with
  | Alert _ _ => true
  | _ => false
  end.

Definition isVerifyTokenCall (e : Effect) : bool :=
  match e with
  | Fetch VerifyToken _ _ _ => true
  | _ => false
  end.

Definition isPrivacyPut (e : Effect) : bool :=
  match e with
  | Fetch PrivacyPut _ _ _ => true
  | _ => false
  end.

(** Number of alerts shown so far. *)
Definition alerts (s : App) : nat := Client.countIf isAlert (trace s).

(** Number of verify-token requests sent so far. *)
Definition verifyTokenCalls (s : App) : nat :=
  Client.countIf isVerifyTokenCall (trace s).

(** Number of privacy-settings PUT requests sent so far. *)
Definition privacyPuts (s : App) : nat := Client.countIf isPrivacyPut (trace s).

(** The verify-token request is answered, with an ok status. *)
Definition respondsOk (net : Net) : bool :=
  match net with
  | NetFails => false
  | NetResponds r => ok r
  end.

(** The message that takePicture's catch block shows for a thrown value:
    [error instanceof Error ? error.message : '...'] *)
Definition shownMessage (e : Thrown) : string :=
  match e with
  | ErrorObj m => m
  | NonError => "Failed to register face. Please try again."
  end.

(** Every handler of the client but the face detection callback. *)
Definition notDetection (a : Client.Action) : bool :=
  match a with
  | Client.FacesDetected _ => false
  | _ => true
  end.

(** The composite scores that checkFaceQuality can produce, and the 0
    that the screen starts from and resets to. *)
Definition knownScore (q : Q) : Prop :=
  (q == 0 \/ q == 3 # 10 \/ q == 6 # 10 \/ q == 7 # 10 \/ q == 1)%Q.

End Observe.

(* ===================================================================== *)
(** * Properties *)
(* ===================================================================== *)

(** ** Basic facts about the JavaScript helpers and the trace *)

Section Basics.

Local Open Scope Q_scope.

Lemma ltb_lt (a b : Q) : Js.ltb a b = true <-> a < b.
Proof.
  unfold Js.ltb. rewrite negb_true_iff, <- not_true_iff_false, Qle_bool_iff.
  split; [apply Qnot_le_lt | apply Qlt_not_le].
Qed.

Lemma ltb_ge (a b : Q) : Js.ltb a b = false <-> b <= a.
Proof.
  unfold Js.ltb. rewrite negb_false_iff. apply Qle_bool_iff.
Qed.

Lemma countIf_app (p : Effect -> bool) (l1 l2 : list Effect) :
  Client.countIf p (l1 ++ l2) = (Client.countIf p l1 + Client.countIf p l2)%nat.
Proof.
  induction l1 as [|e l1 IH]; simpl; [reflexivity|]. rewrite IH. lia.
Qed.

End Basics.

(** ** The quality score: checkFaceQuality and handleFaceDetected *)

Module QualityScore.

Import FaceRegistrationScreen Client Samples.
Local Open Scope Q_scope.

(** The code's accumulation is the weighted sum of what its two tests
    returned. *)
Lemma accumulate_weightedSum (sizeOk centered : bool) :
  accumulate sizeOk centered == Spec.weightedSum sizeOk centered.
Proof. destruct sizeOk, centered; reflexivity. Qed.

(** Only four scores exist. *)
Lemma accumulate_values (sizeOk centered : bool) :
  accumulate sizeOk centered ==
    match sizeOk, centered with
    | true, true => 1
    | true, false => 7 # 10
    | false, true => 6 # 10
    | false, false => 3 # 10
    end.
Proof. destruct sizeOk, centered; reflexivity. Qed.

(** On doubles the four sums are the literals 0.3, 0.6, 0.7 and 1, and
    [score > 0.7] decides as on the rationals. *)
Lemma binary64_scores :
  Binary64.accumulate false false = 0.3%float
  /\ Binary64.accumulate false true = 0.6%float
  /\ Binary64.accumulate true false = 0.7%float
  /\ Binary64.accumulate true true = 1%float.
Proof. repeat split; vm_compute; reflexivity. Qed.

Lemma binary64_passes (sizeOk centered : bool) :
  Binary64.passes sizeOk centered = Js.ltb (7 # 10) (accumulate sizeOk centered).
Proof. destruct sizeOk, centered; vm_compute; reflexivity. Qed.

Lemma sizeInRange_iff (face : Face) :
  sizeInRange face = true <->
    100 < width (size (bounds face)) /\ width (size (bounds face)) < 240
    /\ 100 < height (size (bounds face)) /\ height (size (bounds face)) < 240.
Proof.
  unfold sizeInRange, minSize, maxSize.
  rewrite !andb_true_iff, !ltb_lt. tauto.
Qed.

Lemma faceCentered_iff (face : Face) :
  faceCentered face = true <->
    (160 <? centerX face)%float = true /\ (centerX face <? 240)%float = true
    /\ (260 <? centerY face)%float = true /\ (centerY face <? 340)%float = true.
Proof.
  unfold faceCentered. rewrite !andb_true_iff. tauto.
Qed.

(** The conversion takes the value of a double back to it, a decimal
    literal to the double JavaScript reads it as, and a quotient of
    integers to the double that the division of doubles gives. *)
Example double_of_value :
  Double.ofQ (Double.toQ 165.2) = 165.2%float
  /\ Double.ofQ (Double.toQ 149.6) = 149.6%float
  /\ Double.ofQ (Double.toQ 5e-324) = 5e-324%float
  /\ Double.ofQ (Double.toQ 1.7976931348623157e308) = 1.7976931348623157e308%float
  /\ Double.ofQ (1652 # 10) = 165.2%float
  /\ Double.ofQ (1496 # 10) = 149.6%float
  /\ Double.ofQ (30000000000000004 # 100000000000000000) = (0.1 + 0.2)%float
  /\ Double.ofQ (- 1 # 3) = (- 1 / 3)%float
  /\ Double.ofQ 240 = 240%float
  /\ Double.toQ 240 == 240.
Proof. repeat split; vm_compute; reflexivity. Qed.

(** The sum is rounded: for the box at x = 165.2, y = 225 of width 149.6
    and height 150 (as doubles) the exact centroid lies strictly inside
    the window 160..240 by 260..340, but the sum the code computes is the
    double 240 and the face is not centred. *)
Example centroid_rounds_onto_bound :
  let face := mkFace (Double.toQ 165.2) (Double.toQ 225)
                     (Double.toQ 149.6) (Double.toQ 150) in
  (160 < Spec.centroidX face /\ Spec.centroidX face < 240
   /\ 260 < Spec.centroidY face /\ Spec.centroidY face < 340)
  /\ centerX face = 240%float
  /\ centerY face = 300%float
  /\ faceCentered face = false
  /\ isFaceCentered (reg (step (FacesDetected [face]) initialApp)) = false
  /\ faceCentered (mkFace (1652 # 10) 225 (1496 # 10) 150) = false.
Proof. vm_compute. repeat split; reflexivity. Qed.

(** What one detection event leaves in the component state. *)
Lemma handleFaceDetected_reg (s : App) (face : Face) (rest : list Face) :
  reg (step (FacesDetected (face :: rest)) s) =
    mkReg (hasPermission (reg s)) (isRegistering (reg s))
          (registrationSuccess (reg s)) (faceCentered face)
          (registrationStep (reg s)) (errorMessage (reg s))
          (compositeScore (isFaceCentered (reg s)) face).
Proof. reflexivity. Qed.

Lemma handleFaceDetected_trace (s : App) (face : Face) (rest : list Face) :
  trace (step (FacesDetected (face :: rest)) s) =
    (trace s ++ [Scored (compositeScore (isFaceCentered (reg s)) face)])%list.
Proof. reflexivity. Qed.

(** The flag read by the scorer is the one of the previous render: the
    first detection of a well-sized, centred face scores 0.7, the next
    detection of the same face scores 1. *)
Example score_uses_previous_flag :
  let face := mkFace 125 225 150 150 in
  sizeInRange face = true /\ faceCentered face = true
  /\ qualityScore (reg (step (FacesDetected [face]) initialApp)) == 7 # 10
  /\ qualityScore (reg (steps [FacesDetected [face]; FacesDetected [face]] initialApp)) == 1.
Proof. vm_compute. repeat split; reflexivity. Qed.

(** C4, as stated, fails: a box of exactly 100 by 100 pixels lies in the
    range 100 to 240, yet the code awards it no size term (away from the
    centre, in the initial state, it scores 0.3 and not 0.7). *)
Lemma C4_counterexample :
  ~ (forall (s : App) (face : Face) (rest : list Face),
       qualityScore (reg (step (FacesDetected (face :: rest)) s)) == Spec.specScore face).
Proof.
  intros H. specialize (H initialApp (mkFace 0 0 100 100) []).
  vm_compute in H. discriminate H.
Qed.

(** C4, amended: after a detection event the stored composite score is
    the weighted sum 0.4 * size + 0.3 * centered + 0.3, where the size
    term is awarded exactly when width and height are both strictly
    between 100 and 240, and the centering term exactly when the
    isFaceCentered flag of the component state the handler was created
    with is set. *)
Theorem C4_score_is_weighted_sum (s : App) (face : Face) (rest : list Face) :
  qualityScore (reg (step (FacesDetected (face :: rest)) s))
    == Spec.weightedSum (sizeInRange face) (isFaceCentered (reg s))
  /\ (sizeInRange face = true <->
        100 < width (size (bounds face)) /\ width (size (bounds face)) < 240
        /\ 100 < height (size (bounds face)) /\ height (size (bounds face)) < 240).
Proof.
  split; [|apply sizeInRange_iff].
  rewrite handleFaceDetected_reg. cbn [qualityScore].
  apply accumulate_weightedSum.
Qed.

(** C5, as stated, fails: a box of zero area does not score 0. *)
Lemma C5_counterexample :
  ~ (forall (s : App) (face : Face) (rest : list Face),
       Spec.zeroArea face ->
       qualityScore (reg (step (FacesDetected (face :: rest)) s)) == 0).
Proof.
  intros H.
  assert (Hz : Spec.zeroArea (mkFace 10 10 0 0)) by reflexivity.
  specialize (H initialApp (mkFace 10 10 0 0) [] Hz).
  vm_compute in H. discriminate H.
Qed.

Lemma zeroArea_not_inRange (face : Face) :
  Spec.zeroArea face -> sizeInRange face = false.
Proof.
  unfold Spec.zeroArea. intros Hz.
  apply not_true_iff_false. rewrite sizeInRange_iff. intros (Hw & _ & Hh & _).
  assert (0 < width (size (bounds face)) * height (size (bounds face))) by nra.
  lra.
Qed.

(** C5, amended: the scorer always returns (the detection handler
    resolves on every list of faces), the score lies in [0.3, 1], hence
    in [0, 1], and a box of zero area gets no size term: it scores 0.3,
    or 0.6 when the centered flag is set. *)
Theorem C5_score_total_bounded (s : App) (face : Face) (rest : list Face) :
  (forall faces, fst (handler (FacesDetected faces) s) = Resolved tt)
  /\ (3 # 10 <= qualityScore (reg (step (FacesDetected (face :: rest)) s))
      /\ qualityScore (reg (step (FacesDetected (face :: rest)) s)) <= 1)
  /\ (Spec.zeroArea face ->
      qualityScore (reg (step (FacesDetected (face :: rest)) s))
        == (3 # 10) + (if isFaceCentered (reg s) then 3 # 10 else 0)).
Proof.
  split; [intros [|f l]; reflexivity|].
  rewrite handleFaceDetected_reg. cbn [qualityScore]. unfold compositeScore.
  split.
  - rewrite accumulate_values.
    destruct (sizeInRange face), (isFaceCentered (reg s)); split; vm_compute; discriminate.
  - intros Hz. rewrite (zeroArea_not_inRange _ Hz), accumulate_values.
    destruct (isFaceCentered (reg s)); reflexivity.
Qed.

Lemma C5_score_total_bounded_witness :
  Spec.zeroArea (mkFace 10 10 0 0)
  /\ qualityScore (reg (step (FacesDetected [mkFace 10 10 0 0]) initialApp)) == 3 # 10.
Proof.
  split; [reflexivity|].
  apply (C5_score_total_bounded initialApp (mkFace 10 10 0 0) []). reflexivity.
Defined.

(** C6, as stated, fails: no rectangle whose bounds are fractions of
    the frame size decides centering as the code does, whatever the
    fractions. *)
Lemma C6_counterexample :
  ~ (exists lx hx ly hy : Q,
       forall (face : Face) (frameW frameH : Q),
         0 < frameW -> 0 < frameH ->
         faceCentered face = Spec.centeredInBand lx hx ly hy frameW frameH face).
Proof.
  intros (lx & hx & ly & hy & H).
  (* a face centred at (200, 300), in a frame of 1 by 1 *)
  pose proof (H (mkFace 150 250 100 100) 1 1 ltac:(reflexivity) ltac:(reflexivity)) as H1.
  (* a face centred at (100, 300), in a frame of 1/2 by 1 *)
  pose proof (H (mkFace 50 250 100 100) (1 # 2) 1 ltac:(reflexivity) ltac:(reflexivity)) as H2.
  assert (E1 : faceCentered (mkFace 150 250 100 100) = true)
    by (vm_compute; reflexivity).
  assert (E2 : faceCentered (mkFace 50 250 100 100) = false)
    by (vm_compute; reflexivity).
  rewrite E1 in H1. rewrite E2 in H2.
  symmetry in H1. unfold Spec.centeredInBand in H1, H2.
  rewrite !andb_true_iff, !ltb_lt in H1.
  destruct H1 as (((Ha & Hb) & Hc) & Hd).
  assert (Hx : Spec.centroidX (mkFace 150 250 100 100) == 200) by reflexivity.
  assert (Hy : Spec.centroidY (mkFace 150 250 100 100) == 300) by reflexivity.
  assert (Hx' : Spec.centroidX (mkFace 50 250 100 100) == 100) by reflexivity.
  assert (Hy' : Spec.centroidY (mkFace 50 250 100 100) == 300) by reflexivity.
  rewrite Hx in Ha, Hb. rewrite Hy in Hc, Hd.
  assert (Hin : Spec.centeredInBand lx hx ly hy (1 # 2) 1 (mkFace 50 250 100 100) = true).
  { unfold Spec.centeredInBand. rewrite !andb_true_iff, !ltb_lt, Hx', Hy'.
    repeat split; lra. }
  unfold Spec.centeredInBand in Hin. rewrite Hin in H2. discriminate H2.
Qed.

(** C6, amended: the flag a detection event stores is true exactly when
    the centroid of the first face, as the code computes it on doubles
    (x + width / 2 and y + height / 2, the quotient and the sum each
    rounded to the nearest double), lies strictly inside the fixed pixel
    window 160..240 by 260..340; it depends on the box alone, not on the
    frame size nor on the state. *)
Theorem C6_centered_fixed_window (s : App) (face : Face) (rest : list Face) :
  isFaceCentered (reg (step (FacesDetected (face :: rest)) s)) = true <->
    (160 <? Double.ofQ (x (origin (bounds face)))
            + Double.ofQ (width (size (bounds face))) / 2)%float = true
    /\ (Double.ofQ (x (origin (bounds face)))
        + Double.ofQ (width (size (bounds face))) / 2 <? 240)%float = true
    /\ (260 <? Double.ofQ (y (origin (bounds face)))
               + Double.ofQ (height (size (bounds face))) / 2)%float = true
    /\ (Double.ofQ (y (origin (bounds face)))
        + Double.ofQ (height (size (bounds face))) / 2 <? 340)%float = true.
Proof.
  rewrite handleFaceDetected_reg. cbn [isFaceCentered].
  apply faceCentered_iff.
Qed.

End QualityScore.

(** ** Relations that every handler respects *)

Module Preservation.

Import Client.

Section Respects.

(** A preorder on client states that each primitive state change
    respects; [allowed] singles out the provider states that the code
    passes to setState. *)
Context (R : App -> App -> Prop) `{!PreOrder R}.
Variable allowed : AuthState -> Prop.
Hypothesis R_emit : forall e s, R s (emit e s).
Hypothesis R_reg : forall r s, R s (set_reg r s).
Hypothesis R_authScreen : forall a s, R s (set_authScreen a s).
Hypothesis R_privacy : forall p s, R s (set_privacy p s).
Hypothesis R_storage : forall m s, R s (set_storage m s).
Hypothesis R_auth : forall a s, allowed a -> R s (set_auth a s).
Hypothesis allowed_signed_in :
  forall tok uid, allowed (mkAuth true (Some tok) (Some uid) false).
Hypothesis allowed_signed_out : allowed (mkAuth false None None false).

Lemma respects_ret {A} (a : A) : respects R (ret a).
Proof. intros s. cbn. reflexivity. Qed.

Lemma respects_throw {A} (e : Thrown) : respects R (@throw A e).
Proof. intros s. cbn. reflexivity. Qed.

Lemma respects_get : respects R get.
Proof. intros s. cbn. reflexivity. Qed.

Lemma respects_modify (f : App -> App) :
  (forall s, R s (f s)) -> respects R (modify f).
Proof. intros H s. apply H. Qed.

Lemma respects_bind {A B} (m : Async A) (k : A -> Async B) :
  respects R m -> (forall a, respects R (k a)) -> respects R (bind m k).
Proof.
  intros Hm Hk s. unfold bind. specialize (Hm s).
  destruct (m s) as [[a|e] s1]; cbn in *; [|exact Hm].
  etransitivity; [exact Hm | apply Hk].
Qed.

Lemma respects_tryCatch {A} (m : Async A) (h : Thrown -> Async A) :
  respects R m -> (forall e, respects R (h e)) -> respects R (tryCatch m h).
Proof.
  intros Hm Hh s. unfold tryCatch. specialize (Hm s).
  destruct (m s) as [[a|e] s1]; cbn in *; [exact Hm|].
  etransitivity; [exact Hm | apply Hh].
Qed.

Lemma respects_tryFinally {A} (m : Async A) (f : Async unit) :
  respects R m -> respects R f -> respects R (tryFinally m f).
Proof.
  intros Hm Hf s. unfold tryFinally. specialize (Hm s).
  destruct (m s) as [r s1]; cbn in *.
  etransitivity; [exact Hm | apply Hf].
Qed.

Lemma respects_all2 {A B} (p : Async A) (q : Async B) :
  respects R p -> respects R q -> respects R (AuthContext.all2 p q).
Proof.
  intros Hp Hq s. unfold AuthContext.all2. specialize (Hp s).
  destruct (p s) as [ra s1]; cbn in *. specialize (Hq s1).
  destruct (q s1) as [rb s2]; cbn in *.
  assert (R s s2) by (etransitivity; eassumption).
  destruct ra, rb; assumption.
Qed.

Lemma respects_getItem b key : respects R (AuthContext.getItem b key).
Proof.
  unfold AuthContext.getItem. destruct b; [|apply respects_throw].
  intros s. cbn. reflexivity.
Qed.

(** Breaks a handler down to its primitive state changes. *)
Ltac step_respects_with known :=
  repeat first
    [ progress intros
    | known
    | apply respects_ret | apply respects_throw | apply respects_get
    | apply respects_getItem
    | apply respects_modify; intros;
      first [ apply R_emit | apply R_reg | apply R_authScreen
            | apply R_privacy | apply R_storage
            | apply R_auth;
              first [ apply allowed_signed_in | apply allowed_signed_out ] ]
    | apply respects_bind | apply respects_tryCatch
    | apply respects_tryFinally | apply respects_all2
    | match goal with
      | |- respects _ (match ?x with _ => _ end) => destruct x
      | |- respects _ (if ?b then _ else _) => destruct b
      end ].

Ltac step_respects := step_respects_with fail.

Lemma respects_login io tok uid : respects R (AuthContext.login io tok uid).
Proof.
  unfold AuthContext.login, AuthContext.setItem, AuthContext.setState,
    AuthContext.consoleError.
  step_respects.
Qed.

Lemma respects_logout io : respects R (AuthContext.logout io).
Proof.
  unfold AuthContext.logout, AuthContext.removeItem, AuthContext.setState,
    AuthContext.consoleError.
  step_respects.
Qed.

Lemma respects_loadAuthState io net : respects R (AuthContext.loadAuthState io net).
Proof.
  unfold AuthContext.loadAuthState, AuthContext.setState,
    AuthContext.consoleError, AuthContext.fetch, AuthContext.signedOut.
  apply respects_tryCatch; [|step_respects].
  apply respects_bind; [step_respects|].
  intros [[[|c r]|] [[|c' r']|]]; step_respects.
Qed.

Lemma respects_registerFace net img : respects R (AuthContext.registerFace net img).
Proof.
  unfold AuthContext.registerFace, AuthContext.fetch, AuthContext.json,
    AuthContext.field, AuthContext.consoleError.
  step_respects.
Qed.

Lemma respects_verifyFace net io img : respects R (AuthContext.verifyFace net io img).
Proof.
  unfold AuthContext.verifyFace, AuthContext.fetch, AuthContext.json,
    AuthContext.field, AuthContext.consoleError.
  step_respects_with ltac:(apply respects_login).
Qed.

Lemma respects_handleFaceDetected faces :
  respects R (FaceRegistrationScreen.handleFaceDetected faces).
Proof.
  unfold FaceRegistrationScreen.handleFaceDetected,
    FaceRegistrationScreen.checkFaceQuality,
    FaceRegistrationScreen.setIsFaceCentered,
    FaceRegistrationScreen.setQualityScore, FaceRegistrationScreen.onReg.
  step_respects.
Qed.

Lemma respects_takePicture camera net :
  respects R (FaceRegistrationScreen.takePicture camera net).
Proof.
  unfold FaceRegistrationScreen.takePicture,
    FaceRegistrationScreen.takePictureAsync, FaceRegistrationScreen.alert,
    FaceRegistrationScreen.setIsRegistering,
    FaceRegistrationScreen.setRegistrationStep,
    FaceRegistrationScreen.setRegistrationSuccess,
    FaceRegistrationScreen.setErrorMessage, FaceRegistrationScreen.onReg.
  step_respects_with ltac:(apply respects_registerFace).
Qed.

Lemma respects_resetRegistration :
  respects R FaceRegistrationScreen.resetRegistration.
Proof.
  unfold FaceRegistrationScreen.resetRegistration,
    FaceRegistrationScreen.setIsRegistering,
    FaceRegistrationScreen.setRegistrationStep,
    FaceRegistrationScreen.setRegistrationSuccess,
    FaceRegistrationScreen.setErrorMessage,
    FaceRegistrationScreen.setQualityScore, FaceRegistrationScreen.onReg.
  step_respects.
Qed.

Lemma respects_captureImage camera : respects R (AuthScreen.captureImage camera).
Proof.
  unfold AuthScreen.captureImage, FaceRegistrationScreen.takePictureAsync,
    AuthContext.consoleError.
  step_respects.
Qed.

Lemma respects_handleRegistration camera net :
  respects R (AuthScreen.handleRegistration camera net).
Proof.
  unfold AuthScreen.handleRegistration, AuthScreen.setIsProcessing,
    AuthScreen.setIsRegistering, AuthScreen.alert, AuthContext.consoleError.
  step_respects_with
    ltac:(first [apply respects_captureImage | apply respects_registerFace]).
Qed.

Lemma respects_handleVerification camera net io :
  respects R (AuthScreen.handleVerification camera net io).
Proof.
  unfold AuthScreen.handleVerification, AuthScreen.setIsProcessing,
    AuthScreen.alert, AuthContext.consoleError.
  step_respects_with
    ltac:(first [apply respects_captureImage | apply respects_verifyFace]).
Qed.

Lemma respects_loadPrivacySettings data :
  respects R (PrivacyDashboardScreen.loadPrivacySettings data).
Proof.
  unfold PrivacyDashboardScreen.loadPrivacySettings,
    PrivacyDashboardScreen.setSettings, PrivacyDashboardScreen.setLoading.
  step_respects.
Qed.

Lemma respects_updateConsent putSettles category value :
  respects R (PrivacyDashboardScreen.updateConsent putSettles category value).
Proof.
  unfold PrivacyDashboardScreen.updateConsent, PrivacyDashboardScreen.apiPut,
    PrivacyDashboardScreen.setSettings, PrivacyDashboardScreen.setSaving.
  step_respects.
Qed.

Lemma respects_handler (a : Action) : respects R (handler a).
Proof.
  destruct a; cbn [handler];
    auto using respects_handleFaceDetected, respects_takePicture,
      respects_resetRegistration, respects_handleRegistration,
      respects_handleVerification, respects_logout, respects_loadAuthState,
      respects_loadPrivacySettings, respects_updateConsent.
Qed.

Lemma respects_step (a : Action) (s : App) : R s (step a s).
Proof. apply respects_handler. Qed.

Lemma respects_steps (acts : list Action) (s : App) : R s (steps acts s).
Proof.
  revert s. induction acts as [|a acts IH]; intros s; cbn; [reflexivity|].
  etransitivity; [apply (respects_step a) | apply IH].
Qed.

End Respects.

(** *** First instance: the effect trace only grows *)

#[local] Instance traceGrows_preorder : PreOrder traceGrows.
Proof.
  split.
  - intros s. exists []. now rewrite app_nil_r.
  - intros s1 s2 s3 [l1 H1] [l2 H2]. exists (l1 ++ l2)%list.
    now rewrite H2, H1, app_assoc.
Qed.

Lemma traceGrows_same (s s' : App) : trace s' = trace s -> traceGrows s s'.
Proof. intros H. exists []. now rewrite H, app_nil_r. Qed.

Lemma step_trace (a : Action) (s : App) : traceGrows s (step a s).
Proof.
  apply (respects_step traceGrows (fun _ => True)); intros;
    first [ exact I | now exists [e] | now apply traceGrows_same ].
Qed.

Lemma steps_trace (acts : list Action) (s : App) : traceGrows s (steps acts s).
Proof.
  apply (respects_steps traceGrows (fun _ => True)); intros;
    first [ exact I | now exists [e] | now apply traceGrows_same ].
Qed.

(** *** Second instance: the provider holds a token exactly when it is
    authenticated *)

#[local] Instance keepsAuth_preorder (P : AuthState -> Prop) : PreOrder (keepsAuth P).
Proof. split; unfold keepsAuth; [intros s | intros s1 s2 s3]; tauto. Qed.


End Preservation.

(** ** What gates a submission to the face endpoints *)

Module Submission.

Import FaceRegistrationScreen Client Samples.
Local Open Scope Q_scope.

Lemma handleVerification_matcherCalls (s : App) (b : string) (net : Net)
    (io : StorageIO) :
  matcherCalls (step (HandleVerification (Some (Captured b)) net io) s)
    = S (matcherCalls s).
Proof.
  unfold matcherCalls, step, handler, AuthScreen.handleVerification.
  destruct io as [[|] [|]];
    destruct net as [|[o [|[|[[[|]|] [[|c r]|] er]]]]]; cbn;
    rewrite ?countIf_app; cbn; lia.
Qed.

Lemma matcherCalls_step (a : Action) (s : App) :
  (matcherCalls s <= matcherCalls (step a s))%nat.
Proof.
  destruct (Preservation.step_trace a s) as [l H].
  unfold matcherCalls. rewrite H, countIf_app. lia.
Qed.

Lemma matcherCalls_steps (acts : list Action) (s : App) :
  (matcherCalls s <= matcherCalls (steps acts s))%nat.
Proof.
  destruct (Preservation.steps_trace acts s) as [l H].
  unfold matcherCalls. rewrite H, countIf_app. lia.
Qed.

(** The score does not gate in the other direction either: a well-sized
    face away from the centre scores 0.7, and takePicture sends nothing. *)
Example score_reached_yet_not_submitted :
  let s := step (FacesDetected [offCentreFace]) initialApp in
  qualityScore (reg s) == 7 # 10
  /\ matcherCalls (step (TakePicture (Some (Captured "AAAA")) NetFails) s) = 0%nat.
Proof. vm_compute. split; reflexivity. Qed.

(** C1, as stated, fails: after two detections of a centred face of 50
    by 50 pixels the composite score is 0.6, below 0.7, and takePicture
    still sends the picture to the registration endpoint. *)
Lemma C1_counterexample :
  ~ (forall (s : App) (camera : option Capture) (net : Net),
       qualityScore (reg s) < 7 # 10 ->
       matcherCalls (step (TakePicture camera net) s) = matcherCalls s).
Proof.
  intros H.
  specialize (H (steps [FacesDetected [smallCentredFace];
                        FacesDetected [smallCentredFace]] initialApp)
                (Some (Captured "AAAA")) noMatch).
  assert (Hq : qualityScore (reg (steps [FacesDetected [smallCentredFace];
                 FacesDetected [smallCentredFace]] initialApp)) < 7 # 10)
    by (vm_compute; reflexivity).
  specialize (H Hq). vm_compute in H. discriminate H.
Qed.

(** C1, amended: takePicture sends a frame to the Matcher (one request
    to the registration endpoint) exactly when a camera is mounted, the
    isFaceCentered flag is set and the capture succeeds; the composite
    quality score plays no part in the decision. *)
Theorem C1_submission_gated_by_centering (s : App) (camera : option Capture)
    (net : Net) :
  matcherCalls (step (TakePicture camera net) s) =
    (matcherCalls s +
     match camera with
     | Some (Captured _) => if isFaceCentered (reg s) then 1 else 0
     | _ => 0
     end)%nat.
Proof.
  unfold matcherCalls, step, handler, takePicture.
  destruct camera as [[b|e]|]; [ | | cbn; lia].
  - destruct net as [|[o [|[|[[[|]|] tk er]]]]]; cbn;
      destruct (isFaceCentered (reg s)); cbn; rewrite ?countIf_app; cbn; lia.
  - cbn. destruct (isFaceCentered (reg s)); cbn; rewrite ?countIf_app; cbn; lia.
Qed.

(** C2, as stated, fails: four verification attempts in a row, each
    answered with a no-match, send four requests; maxRetries is 3. *)
Lemma C2_counterexample :
  ~ (forall acts : list Action,
       (matcherCalls (steps acts initialApp) <= maxRetries FACE_VERIFICATION)%nat).
Proof.
  intros H.
  specialize (H (repeat (HandleVerification (Some (Captured "AAAA")) noMatch
                           (mkIO true true)) 4)).
  vm_compute in H. lia.
Qed.

(** C2, amended: the number of attempts sent to the face endpoints
    never decreases, under every operation and every sequence of
    operations, and it is not bounded: each verification attempt with a
    captured picture adds one, whatever came before. *)
Theorem C2_attempts_grow_unbounded :
  (forall (a : Action) (s : App), (matcherCalls s <= matcherCalls (step a s))%nat)
  /\ (forall (acts : list Action) (s : App),
        (matcherCalls s <= matcherCalls (steps acts s))%nat)
  /\ (forall (n : nat) (b : string) (net : Net) (io : StorageIO) (s : App),
        matcherCalls (steps (repeat (HandleVerification (Some (Captured b)) net io) n) s)
          = (matcherCalls s + n)%nat).
Proof.
  split; [exact matcherCalls_step|]. split; [exact matcherCalls_steps|].
  induction n as [|n IH]; intros b net io s; cbn.
  - lia.
  - unfold steps in IH. rewrite IH, handleVerification_matcherCalls. lia.
Qed.

(** C8, as stated, fails: with the facial-data consent refused, a
    detection event still runs the scorer. *)
Lemma C8_counterexample :
  ~ (forall (s : App) (faces : list Face),
       Spec.consentDenied (privacy s) = true ->
       scorerRuns (step (FacesDetected faces) s) = scorerRuns s).
Proof.
  intros H.
  specialize (H (step (LoadPrivacySettings (Some refusedConsent)) initialApp)
                [smallCentredFace]).
  assert (Hd : Spec.consentDenied
                 (privacy (step (LoadPrivacySettings (Some refusedConsent)) initialApp))
               = true) by (vm_compute; reflexivity).
  specialize (H Hd). vm_compute in H. discriminate H.
Qed.

Lemma takePicture_ignores_privacy (s : App) (p : PrivacyState)
    (camera : option Capture) (net : Net) :
  trace (step (TakePicture camera net) (set_privacy p s))
    = trace (step (TakePicture camera net) s)
  /\ reg (step (TakePicture camera net) (set_privacy p s))
     = reg (step (TakePicture camera net) s)
  /\ privacy (step (TakePicture camera net) (set_privacy p s)) = p.
Proof.
  unfold step, handler, takePicture.
  destruct camera as [[b|e]|]; [ | | cbn; auto].
  - destruct net as [|[o [|[|[[[|]|] tk er]]]]]; cbn;
      destruct (isFaceCentered (reg s)); cbn; auto.
  - cbn. destruct (isFaceCentered (reg s)); cbn; auto.
Qed.

(** C8, amended: no consent gate stands before scoring or submission.
    Whatever the privacy state [p], consents refused or missing
    included, a detection event with a face runs the scorer once, and
    takePicture sends as many requests and leaves the same screen state
    as it does under any other privacy state; neither changes [p]. *)
Theorem C8_scoring_ignores_consent (s : App) (p : PrivacyState) (face : Face)
    (rest : list Face) (camera : option Capture) (net : Net) :
  scorerRuns (step (FacesDetected (face :: rest)) (set_privacy p s))
    = S (scorerRuns s)
  /\ reg (step (FacesDetected (face :: rest)) (set_privacy p s))
     = reg (step (FacesDetected (face :: rest)) s)
  /\ privacy (step (FacesDetected (face :: rest)) (set_privacy p s)) = p
  /\ matcherCalls (step (TakePicture camera net) (set_privacy p s))
     = matcherCalls (step (TakePicture camera net) s)
  /\ reg (step (TakePicture camera net) (set_privacy p s))
     = reg (step (TakePicture camera net) s)
  /\ privacy (step (TakePicture camera net) (set_privacy p s)) = p.
Proof.
  split.
  { unfold scorerRuns. rewrite QualityScore.handleFaceDetected_trace.
    rewrite countIf_app. cbn. lia. }
  split; [reflexivity|]. split; [reflexivity|].
  destruct (takePicture_ignores_privacy s p camera net) as (Ht & Hr & Hp).
  split; [unfold matcherCalls; now rewrite Ht|]. now split.
Qed.

End Submission.

(** ** The authentication provider: registerFace, verifyFace, login *)

Module Authentication.

Import AuthContext Client Samples.




(** The two writes of login settle on their own.  When the backend
    accepts, the write of the token succeeds and the write of the user id
    fails, verifyFace resolves to false and leaves the provider state as
    it was, yet the new token stays in the store under the token key. *)
Lemma partial_write_persists_token (s : App) (img : string)
    (c : Ascii.ascii) (tok : string) (okf : bool) (err : option string) :
  fst (verifyFace (accept okf (String c tok) err) (mkIO true false) img s)
    = Resolved false
  /\ auth (snd (verifyFace (accept okf (String c tok) err) (mkIO true false) img s))
     = auth s
  /\ storage (snd (verifyFace (accept okf (String c tok) err) (mkIO true false) img s))
       !! AUTH_TOKEN_KEY = Some (String c tok).
Proof.
  cbn. repeat split. apply lookup_insert_eq.
Qed.



(** C7, as stated, fails: a transport error and a definitive no-match
    hand the caller the same result. *)
Lemma C7_counterexample :
  ~ (forall (s : App) (img : string) (io : StorageIO),
       fst (verifyFace NetFails io img s) <> fst (verifyFace noMatch io img s)).
Proof.
  intros H. apply (H initialApp "img" (mkIO true true)). reflexivity.
Qed.

(** C7, amended: when the request fails in transport, verifyFace resolves
    to false and leaves provider state and store unchanged, and the
    verification handler ends with isProcessing reset and the generic
    verification alert; a definitive refusal gives the caller the same
    result, the same state and the same alert.  The two runs differ only
    in a console.error entry, and each has sent one request. *)
Theorem C7_transport_error_same_as_refusal (s : App) (b : string)
    (io : StorageIO) (okf : bool) (tok err : option string) :
  let img := "data:image/jpeg;base64," +:+ b in
  let failed := step (HandleVerification (Some (Captured b)) NetFails io) s in
  let refused :=
    step (HandleVerification (Some (Captured b)) (rejection okf tok err) io) s in
  fst (verifyFace NetFails io img s) = Resolved false
  /\ fst (verifyFace (rejection okf tok err) io img s) = Resolved false
  /\ (auth failed = auth s /\ storage failed = storage s
      /\ isProcessing (authScreen failed) = false)
  /\ (auth refused = auth s /\ storage refused = storage s
      /\ isProcessing (authScreen refused) = false)
  /\ trace failed
     = (trace s ++ [Fetch FaceVerify (userId (auth s)) img None;
                    ConsoleError "Error verifying face:";
                    Alert "Error" ERROR_MESSAGES.FACE_VERIFICATION])%list
  /\ trace refused
     = (trace s ++ [Fetch FaceVerify (userId (auth s)) img None;
                    Alert "Error" ERROR_MESSAGES.FACE_VERIFICATION])%list.
Proof.
  cbn. rewrite <- !app_assoc. cbn. repeat split.
Qed.

(** C9: registerFace and verifyFace never reject.  Whatever the network
    does they resolve; when fetch rejects, when the body is not JSON, or
    when it parses to null (so that reading a property throws), they
    resolve to false; so does verifyFace when login throws because a
    write to the store failed. *)
Theorem C9_face_calls_never_reject (s : App) (img : string) (io : StorageIO) :
  (forall net, exists r, fst (registerFace net img s) = Resolved r)
  /\ (forall net, exists r, fst (verifyFace net io img s) = Resolved r)
  /\ fst (registerFace NetFails img s) = Resolved (Some false)
  /\ (forall okf, fst (registerFace (notJson okf) img s) = Resolved (Some false))
  /\ (forall okf, fst (registerFace (jsonNull okf) img s) = Resolved (Some false))
  /\ fst (verifyFace NetFails io img s) = Resolved false
  /\ (forall okf, fst (verifyFace (notJson okf) io img s) = Resolved false)
  /\ (forall okf, fst (verifyFace (jsonNull okf) io img s) = Resolved false)
  /\ (forall net, tokenKeyOk io && userIdKeyOk io = false ->
        fst (verifyFace net io img s) = Resolved false).
Proof.
  split.
  { intros net. destruct net as [|[o [|[|[su tk er]]]]]; cbn; eauto. }
  split.
  { intros net. destruct io as [[|] [|]];
      destruct net as [|[o [|[|[[[|]|] [[|c r]|] er]]]]]; cbn; eauto. }
  repeat split; try reflexivity.
  intros net Hio. destruct io as [[|] [|]]; try discriminate Hio;
    destruct net as [|[o [|[|[[[|]|] [[|c r]|] er]]]]]; reflexivity.
Qed.

Lemma C9_face_calls_never_reject_witness :
  tokenKeyOk (mkIO false true) && userIdKeyOk (mkIO false true) = false
  /\ fst (verifyFace (accept true "tok-1" None) (mkIO false true) "img" initialApp)
     = Resolved false.
Proof.
  split; [reflexivity|].
  apply (C9_face_calls_never_reject initialApp "img" (mkIO false true)).
  reflexivity.
Defined.

(** C10: with [userId] null, a successful answer that carries an access
    token still logs the session in: verifyFace resolves to true, the
    provider becomes authenticated with that token and with the empty
    string as user id, and both are written to the store. *)
Theorem C10_null_user_id_logs_in (s : App) (img : string) (c : Ascii.ascii)
    (tok : string) (okf : bool) (err : option string) :
  userId (auth s) = None ->
  fst (verifyFace (accept okf (String c tok) err) (mkIO true true) img s)
    = Resolved true
  /\ auth (snd (verifyFace (accept okf (String c tok) err) (mkIO true true) img s))
     = mkAuth true (Some (String c tok)) (Some "") false
  /\ storage (snd (verifyFace (accept okf (String c tok) err) (mkIO true true) img s))
       !! AUTH_TOKEN_KEY = Some (String c tok)
  /\ storage (snd (verifyFace (accept okf (String c tok) err) (mkIO true true) img s))
       !! USER_ID_KEY = Some "".
Proof.
  intros Hu. unfold verifyFace, accept. cbn. rewrite Hu. cbn.
  repeat split.
  - rewrite lookup_insert_ne by discriminate. apply lookup_insert_eq.
  - apply lookup_insert_eq.
Qed.

Lemma C10_null_user_id_logs_in_witness :
  userId (auth initialApp) = None
  /\ fst (verifyFace (accept true "tok-1" None) (mkIO true true) "img" initialApp)
     = Resolved true
  /\ auth (snd (verifyFace (accept true "tok-1" None) (mkIO true true) "img" initialApp))
     = mkAuth true (Some "tok-1") (Some "") false.
Proof.
  split; [reflexivity|].
  destruct (C10_null_user_id_logs_in initialApp "img" "t"%char "ok-1" true None)
    as (Hr & Ha & _); [reflexivity|].
  split; [exact Hr | exact Ha].
Defined.

End Authentication.

(** ** The authentication provider: login, logout, loadAuthState *)

Module ProviderFacts.

Import AuthContext Client Samples Observe.

(** X1: login resolves exactly when both writes to the store succeed;
    then the provider is authenticated with the given token and user id
    and both can be read back from the store.  Otherwise it rejects with
    the error "Failed to save authentication state" and leaves the
    provider state as it was. *)
Theorem login_outcome (io : StorageIO) (tok uid : string) (s : App) :
  match fst (login io tok uid s) with
  | Resolved _ =>
      tokenKeyOk io && userIdKeyOk io = true
      /\ auth (snd (login io tok uid s)) = mkAuth true (Some tok) (Some uid) false
      /\ storage (snd (login io tok uid s)) !! AUTH_TOKEN_KEY = Some tok
      /\ storage (snd (login io tok uid s)) !! USER_ID_KEY = Some uid
  | Rejected e =>
      tokenKeyOk io && userIdKeyOk io = false
      /\ e = ErrorObj "Failed to save authentication state"
      /\ auth (snd (login io tok uid s)) = auth s
  end.
Proof.
  destruct io as [[|] [|]]; cbn; repeat split.
  - rewrite lookup_insert_ne by discriminate. apply lookup_insert_eq.
  - apply lookup_insert_eq.
Qed.

(** X2: logout resolves exactly when both removals succeed; then the
    provider is signed out and neither key is left in the store.
    Otherwise it rejects with "Failed to clear authentication state" and
    the provider state, authenticated or not, stays as it was. *)
Theorem logout_outcome (io : StorageIO) (s : App) :
  match fst (logout io s) with
  | Resolved _ =>
      tokenKeyOk io && userIdKeyOk io = true
      /\ auth (snd (logout io s)) = mkAuth false None None false
      /\ storage (snd (logout io s)) !! AUTH_TOKEN_KEY = None
      /\ storage (snd (logout io s)) !! USER_ID_KEY = None
  | Rejected e =>
      tokenKeyOk io && userIdKeyOk io = false
      /\ e = ErrorObj "Failed to clear authentication state"
      /\ auth (snd (logout io s)) = auth s
  end.
Proof.
  destruct io as [[|] [|]]; cbn; repeat split.
  - rewrite lookup_delete_ne by discriminate. apply lookup_delete_eq.
  - apply lookup_delete_eq.
Qed.

(** X3: login followed by logout, all store operations succeeding, signs
    the provider out and leaves the store as it was before, less the two
    authentication keys: every other entry is kept. *)
Theorem login_logout_roundtrip (tok uid : string) (s : App) :
  fst (logout (mkIO true true) (snd (login (mkIO true true) tok uid s))) = Resolved tt
  /\ auth (snd (logout (mkIO true true) (snd (login (mkIO true true) tok uid s))))
     = mkAuth false None None false
  /\ storage (snd (logout (mkIO true true) (snd (login (mkIO true true) tok uid s))))
     = delete USER_ID_KEY (delete AUTH_TOKEN_KEY (storage s)).
Proof.
  cbn. repeat split.
  rewrite delete_insert_ne by discriminate.
  now rewrite !delete_insert_eq.
Qed.

(** X4: loadAuthState never rejects and never writes to the store.  It
    ends authenticated, with the stored token and user id, exactly when
    both reads succeed, both stored values are non-empty and the
    verify-token request is answered ok; in every other case it ends
    signed out with isLoading false.  The request is sent only when both
    reads succeed and both values are non-empty. *)
Theorem loadAuthState_outcome (io : StorageIO) (net : Net) (s : App) :
  fst (loadAuthState io net s) = Resolved tt
  /\ storage (snd (loadAuthState io net s)) = storage s
  /\ auth (snd (loadAuthState io net s)) =
       (if tokenKeyOk io && userIdKeyOk io
           && truthyStr (storage s !! AUTH_TOKEN_KEY)
           && truthyStr (storage s !! USER_ID_KEY)
           && respondsOk net
        then mkAuth true (storage s !! AUTH_TOKEN_KEY) (storage s !! USER_ID_KEY) false
        else mkAuth false None None false)
  /\ verifyTokenCalls (snd (loadAuthState io net s)) =
       (verifyTokenCalls s +
        (if tokenKeyOk io && userIdKeyOk io
            && truthyStr (storage s !! AUTH_TOKEN_KEY)
            && truthyStr (storage s !! USER_ID_KEY)
         then 1 else 0))%nat.
Proof.
  unfold verifyTokenCalls.
  destruct io as [[|] [|]];
    cbv [loadAuthState Model.tryCatch Model.bind all2 getItem Model.throw];
    cbn [tokenKeyOk userIdKeyOk];
    destruct (storage s !! AUTH_TOKEN_KEY) as [[|c r]|];
    destruct (storage s !! USER_ID_KEY) as [[|c' r']|];
    try destruct net as [|[[|] b]]; cbn; rewrite ?countIf_app; cbn;
    repeat split; first [reflexivity | lia].
Qed.

(** X5: a session saved by login with a non-empty token and a non-empty
    user id is restored by loadAuthState when the verify-token request is
    answered ok: the provider is authenticated with the same token and
    user id. *)
Theorem login_reload_roundtrip (c c' : ascii) (tok uid : string) (b : Body) (s : App) :
  auth (snd (loadAuthState (mkIO true true) (NetResponds (mkResponse true b))
               (snd (login (mkIO true true) (String c tok) (String c' uid) s))))
    = mkAuth true (Some (String c tok)) (Some (String c' uid)) false.
Proof.
  cbv [loadAuthState Model.tryCatch Model.bind all2 getItem Model.throw login setItem].
  cbn [tokenKeyOk userIdKeyOk]. cbn.
  rewrite lookup_insert_ne by discriminate.
  rewrite !lookup_insert_eq. reflexivity.
Qed.

(** X6: a session opened by verifyFace while userId is null is not
    restored at the next start: login has stored the empty string as user
    id, so loadAuthState, whatever the store reads and the network do,
    ends signed out and does not even send the verify-token request. *)
Theorem null_user_session_not_restored (s : App) (img : string) (c : ascii)
    (tok : string) (okf : bool) (err : option string) (io : StorageIO) (net : Net) :
  userId (auth s) = None ->
  let s1 := snd (verifyFace (accept okf (String c tok) err) (mkIO true true) img s) in
  isAuthenticated (auth s1) = true
  /\ auth (snd (loadAuthState io net s1)) = mkAuth false None None false
  /\ verifyTokenCalls (snd (loadAuthState io net s1)) = verifyTokenCalls s1.
Proof.
  intros Hu s1.
  assert (Hs : storage s1 !! USER_ID_KEY = Some "").
  { subst s1. unfold verifyFace, accept. cbn. rewrite lookup_insert_eq. now rewrite Hu. }
  split; [reflexivity|].
  destruct (loadAuthState_outcome io net s1) as (_ & _ & Ha & Hv).
  rewrite Ha, Hv, Hs. cbn. rewrite !andb_false_r. split; [reflexivity | lia].
Qed.

Lemma null_user_session_not_restored_witness :
  userId (auth initialApp) = None
  /\ auth (snd (loadAuthState (mkIO true true) (accept true "tok-1" None)
                  (snd (verifyFace (accept true "tok-1" None) (mkIO true true)
                          "img" initialApp))))
     = mkAuth false None None false.
Proof.
  split; [reflexivity|].
  apply (null_user_session_not_restored initialApp "img" "t"%char "ok-1" true None
           (mkIO true true) (accept true "tok-1" None)).
  reflexivity.
Defined.

(** X7: registerFace changes neither the provider state nor the store
    (registering a face does not log in).  It sends exactly one request,
    to the registration endpoint, with the provider's user id and the
    picture; the request carries the provider's token as bearer exactly
    when that token is a non-empty string. *)
Theorem registerFace_outcome (net : Net) (img : string) (s : App) :
  auth (snd (registerFace net img s)) = auth s
  /\ storage (snd (registerFace net img s)) = storage s
  /\ exists l,
       trace (snd (registerFace net img s)) =
         (trace s ++
          Fetch FaceRegister (userId (auth s)) img
                match token (auth s) with
                | Some (String c r) => Some (String c r)
                | _ => None
                end :: l)%list
       /\ countIf isMatcherCall l = 0%nat.
Proof.
  assert (Hb : bearerOf (auth s) =
               match token (auth s) with
               | Some (String c r) => Some (String c r)
               | _ => None
               end).
  { unfold bearerOf. now destruct (token (auth s)) as [[|c r]|]. }
  rewrite <- Hb.
  destruct net as [|[o [|[|[su tk er]]]]]; cbn; repeat split;
    eexists; rewrite <- ?app_assoc; cbn; split; reflexivity.
Qed.

End ProviderFacts.

(** ** The screens: takePicture, the authentication screen, consents *)

Module ScreenFacts.

Import FaceRegistrationScreen Client Samples Observe.

(** X8: with the face flagged centred and the picture captured,
    takePicture always ends with isRegistering false and no error
    message.  When registerFace resolves to true the screen reaches step
    3, sets registrationSuccess and shows one alert; in every other case
    (refusal, network or parse failure) the screen stays at step 2 and
    shows no alert at all. *)
Theorem takePicture_outcome (s : App) (b : string) (net : Net) :
  isFaceCentered (reg s) = true ->
  let img := "data:image/jpeg;base64," +:+ b in
  let s' := step (TakePicture (Some (Captured b)) net) s in
  isRegistering (reg s') = false
  /\ errorMessage (reg s') = None
  /\ match fst (AuthContext.registerFace net img s) with
     | Resolved (Some true) =>
         registrationStep (reg s') = 3%nat
         /\ registrationSuccess (reg s') = true
         /\ alerts s' = S (alerts s)
     | _ =>
         registrationStep (reg s') = 2%nat
         /\ registrationSuccess (reg s') = registrationSuccess (reg s)
         /\ alerts s' = alerts s
     end.
Proof.
  intros Hc. unfold alerts, step, handler, takePicture.
  destruct net as [|[o [|[|[[[|]|] tk er]]]]]; cbn; rewrite Hc; cbn;
    rewrite ?countIf_app; cbn; repeat split; lia.
Qed.

Lemma takePicture_outcome_witness :
  isFaceCentered (reg (step (FacesDetected [smallCentredFace]) initialApp)) = true
  /\ registrationStep
       (reg (step (TakePicture (Some (Captured "AAAA")) noMatch)
               (step (FacesDetected [smallCentredFace]) initialApp))) = 2%nat.
Proof.
  split; [reflexivity|].
  destruct (takePicture_outcome (step (FacesDetected [smallCentredFace]) initialApp)
              "AAAA" noMatch) as (_ & _ & H); [reflexivity|].
  apply H.
Defined.

(** X9: with the face flagged centred, when the capture throws,
    takePicture sends nothing: the screen is left at step 1 with
    isRegistering false and, as error message, the message of the thrown
    Error or a fixed text for any other thrown value, and one alert shows
    that same message. *)
Theorem takePicture_capture_error (s : App) (e : Thrown) (net : Net) :
  isFaceCentered (reg s) = true ->
  let s' := step (TakePicture (Some (CaptureThrows e)) net) s in
  reg s' = mkReg (hasPermission (reg s)) false (registrationSuccess (reg s))
                 (isFaceCentered (reg s)) 1 (Some (shownMessage e))
                 (qualityScore (reg s))
  /\ trace s' = (trace s ++ [Alert "Error" (shownMessage e)])%list.
Proof.
  intros Hc. unfold step, handler, takePicture. cbn. rewrite Hc. cbn.
  destruct e; rewrite ?Hc; split; reflexivity.
Qed.

Lemma takePicture_capture_error_witness :
  isFaceCentered (reg (step (FacesDetected [smallCentredFace]) initialApp)) = true
  /\ errorMessage
       (reg (step (TakePicture (Some (CaptureThrows NonError)) NetFails)
               (step (FacesDetected [smallCentredFace]) initialApp)))
     = Some "Failed to register face. Please try again.".
Proof.
  split; [reflexivity|].
  destruct (takePicture_capture_error
              (step (FacesDetected [smallCentredFace]) initialApp) NonError NetFails)
    as (H & _); [reflexivity|].
  now rewrite H.
Defined.

(** X10: a detection event without any face clears the centred flag and
    sets the score to 0, and then takePicture does nothing at all,
    whatever the camera and the network would do. *)
Theorem no_face_blocks_submission (s : App) (camera : option Capture) (net : Net) :
  isFaceCentered (reg (step (FacesDetected []) s)) = false
  /\ (qualityScore (reg (step (FacesDetected []) s)) == 0)%Q
  /\ step (TakePicture camera net) (step (FacesDetected []) s)
     = step (FacesDetected []) s.
Proof.
  split; [reflexivity|]. split; [reflexivity|].
  destruct camera as [[b|e]|]; reflexivity.
Qed.

(** X11: the centred flag and the camera permission are changed by no
    handler other than the detection callback (the permission by none):
    taking a picture, resetting the registration, the authentication
    screen, logout, loading and the privacy handlers keep them; the
    quality score is kept too, except that resetRegistration sets it to
    0.  So after a reset the flag still allows a new picture. *)
Theorem centred_flag_only_set_by_detection (a : Action) (s : App) :
  notDetection a = true ->
  isFaceCentered (reg (step a s)) = isFaceCentered (reg s)
  /\ hasPermission (reg (step a s)) = hasPermission (reg s)
  /\ qualityScore (reg (step a s))
     = match a with
       | ResetRegistration => 0%Q
       | _ => qualityScore (reg s)
       end.
Proof.
  destruct a as [faces|camera net| |camera net|camera net io|io|io net|data|putOk cat v];
    intros H; try discriminate H; clear H; unfold step, handler.
  - unfold takePicture.
    destruct camera as [[b|e]|]; [ | | cbn; auto].
    + destruct net as [|[o [|[|[[[|]|] tk er]]]]]; cbn;
        destruct (isFaceCentered (reg s)) eqn:E; cbn; rewrite ?E; auto.
    + cbn. destruct (isFaceCentered (reg s)) eqn:E; cbn; rewrite ?E; auto.
  - cbn. auto.
  - unfold AuthScreen.handleRegistration.
    destruct camera as [[b|e]|]; [ | cbn; auto | cbn; auto].
    destruct net as [|[o [|[|[[[|]|] tk er]]]]]; cbn; auto.
  - unfold AuthScreen.handleVerification.
    destruct camera as [[b|e]|]; [ | cbn; auto | cbn; auto].
    destruct io as [[|] [|]];
      destruct net as [|[o [|[|[[[|]|] [[|c r]|] er]]]]]; cbn; auto.
  - destruct io as [[|] [|]]; cbn; auto.
  - destruct io as [[|] [|]];
      cbv [AuthContext.loadAuthState tryCatch bind AuthContext.all2
           AuthContext.getItem throw];
      cbn [tokenKeyOk userIdKeyOk];
      destruct (storage s !! AUTH_TOKEN_KEY) as [[|c r]|];
      destruct (storage s !! USER_ID_KEY) as [[|c' r']|];
      try destruct net as [|[[|] b]]; cbn; auto.
  - destruct data; cbn; auto.
  - unfold PrivacyDashboardScreen.updateConsent. cbv [bind get].
    destruct (settings (privacy s)); [destruct putOk|]; cbn; auto.
Qed.

Lemma centred_flag_only_set_by_detection_witness :
  notDetection ResetRegistration = true
  /\ isFaceCentered
       (reg (step ResetRegistration
               (step (FacesDetected [smallCentredFace]) initialApp))) = true.
Proof.
  split; [reflexivity|].
  destruct (centred_flag_only_set_by_detection ResetRegistration
              (step (FacesDetected [smallCentredFace]) initialApp)) as (H & _);
    [reflexivity|].
  now rewrite H.
Defined.

(** X12: handleRegistration of the authentication screen always ends
    with isProcessing false and has shown exactly one alert, whatever
    happened; it never changes the provider state or the store; and it
    sends a request only when a picture was captured (none when no camera
    is mounted or the capture throws). *)
Theorem handleRegistration_outcome (camera : option Capture) (net : Net) (s : App) :
  let s' := step (HandleRegistration camera net) s in
  isProcessing (authScreen s') = false
  /\ alerts s' = S (alerts s)
  /\ auth s' = auth s
  /\ storage s' = storage s
  /\ matcherCalls s' =
       (matcherCalls s + match camera with Some (Captured _) => 1 | _ => 0 end)%nat.
Proof.
  unfold alerts, matcherCalls, step, handler, AuthScreen.handleRegistration.
  destruct camera as [[b|e]|];
    [ destruct net as [|[o [|[|[[[|]|] tk er]]]]] | | ];
    cbn; rewrite ?countIf_app; cbn; repeat split; lia.
Qed.

(** X13: handleVerification always ends with isProcessing false.  Either
    the provider state is unchanged and exactly one alert was shown, or
    the provider has become authenticated with a token and no alert was
    shown.  A request is sent only when a picture was captured. *)
Theorem handleVerification_outcome (camera : option Capture) (net : Net)
    (io : StorageIO) (s : App) :
  let s' := step (HandleVerification camera net io) s in
  isProcessing (authScreen s') = false
  /\ ((auth s' = auth s /\ alerts s' = S (alerts s))
      \/ (isAuthenticated (auth s') = true /\ isLoading (auth s') = false
          /\ token (auth s') <> None /\ alerts s' = alerts s))
  /\ matcherCalls s' =
       (matcherCalls s + match camera with Some (Captured _) => 1 | _ => 0 end)%nat.
Proof.
  unfold alerts, matcherCalls, step, handler, AuthScreen.handleVerification.
  destruct camera as [[b|e]|];
    [ destruct io as [[|] [|]];
      destruct net as [|[o [|[|[[[|]|] [[|c r]|] er]]]]] | | ];
    cbn; rewrite ?countIf_app; cbn;
    (split; [reflexivity|]); (split; [|lia]);
    first [ left; split; [reflexivity | lia]
          | right; repeat split; first [discriminate | lia] ].
Qed.

(** X14: with the settings loaded and the PUT succeeding, updateConsent
    stores the new value under the category and keeps every other
    consent, the retention preferences and the data usage preferences;
    it ends with saving false, shows no alert and has sent one PUT. *)
Theorem updateConsent_saved (s : App) (current : PrivacySettings)
    (category other : string) (value : bool) :
  settings (privacy s) = Some current ->
  let s' := step (UpdateConsent true category value) s in
  (exists saved,
     settings (privacy s') = Some saved
     /\ consents saved !! category = Some value
     /\ (other <> category -> consents saved !! other = consents current !! other)
     /\ retention_preferences saved = retention_preferences current
     /\ data_usage_preferences saved = data_usage_preferences current)
  /\ saving (privacy s') = false
  /\ alerts s' = alerts s
  /\ privacyPuts s' = S (privacyPuts s).
Proof.
  intros Hs.
  unfold alerts, privacyPuts, step, handler, PrivacyDashboardScreen.updateConsent.
  cbv [bind get]. rewrite Hs. cbn. rewrite ?countIf_app. cbn.
  split; [|repeat split; lia].
  eexists. split; [reflexivity|]. cbn. split; [apply lookup_insert_eq|].
  split; [|split; reflexivity].
  intros Hne. apply lookup_insert_ne. congruence.
Qed.

Lemma updateConsent_saved_witness :
  settings (privacy (step (LoadPrivacySettings (Some refusedConsent)) initialApp))
    = Some refusedConsent
  /\ alerts (step (UpdateConsent true "facial_data" true)
               (step (LoadPrivacySettings (Some refusedConsent)) initialApp))
     = alerts (step (LoadPrivacySettings (Some refusedConsent)) initialApp).
Proof.
  split; [reflexivity|].
  destruct (updateConsent_saved
              (step (LoadPrivacySettings (Some refusedConsent)) initialApp)
              refusedConsent "facial_data" "voice_data" true) as (_ & _ & H & _);
    [reflexivity|].
  exact H.
Defined.

(** X15: when the PUT fails, updateConsent leaves the settings as they
    were (no optimistic update), ends with saving false and shows one
    alert; and while no settings are loaded it does nothing at all,
    whether the PUT would succeed or not: no request, no alert. *)
Theorem updateConsent_failed_or_unloaded (s : App) (category : string) (value : bool) :
  let s' := step (UpdateConsent false category value) s in
  settings (privacy s') = settings (privacy s)
  /\ match settings (privacy s) with
     | None =>
         forall putSettles, step (UpdateConsent putSettles category value) s = s
     | Some _ =>
         saving (privacy s') = false
         /\ alerts s' = S (alerts s)
         /\ privacyPuts s' = S (privacyPuts s)
     end.
Proof.
  unfold alerts, privacyPuts, step, handler, PrivacyDashboardScreen.updateConsent.
  cbv [bind get].
  destruct (settings (privacy s)) as [cur|] eqn:E; cbn.
  - rewrite ?countIf_app. cbn. repeat split; rewrite ?E; first [reflexivity | lia].
  - split; [exact E|]. intros p. destruct s; reflexivity.
Qed.

End ScreenFacts.

(** ** The store keys, the root component and the theme *)

Module StoreFacts.

Import Client Samples Observe.

Lemma step_storage_other (a : Action) (s : App) (k : string) :
  k <> AUTH_TOKEN_KEY -> k <> USER_ID_KEY ->
  storage (step a s) !! k = storage s !! k.
Proof.
  intros Ht Hu.
  destruct a as [faces|camera net| |camera net|camera net io|io|io net|data|putOk cat v];
    unfold step, handler.
  - destruct faces; reflexivity.
  - unfold FaceRegistrationScreen.takePicture.
    destruct camera as [[b|e]|]; [ | | reflexivity].
    + destruct net as [|[o [|[|[[[|]|] tk er]]]]]; cbn;
        destruct (isFaceCentered (reg s)); reflexivity.
    + cbn. destruct (isFaceCentered (reg s)); reflexivity.
  - reflexivity.
  - unfold AuthScreen.handleRegistration.
    destruct camera as [[b|e]|]; [ | reflexivity | reflexivity].
    destruct net as [|[o [|[|[[[|]|] tk er]]]]]; reflexivity.
  - unfold AuthScreen.handleVerification.
    destruct camera as [[b|e]|]; [ | reflexivity | reflexivity].
    destruct io as [[|] [|]];
      destruct net as [|[o [|[|[[[|]|] [[|c r]|] er]]]]]; cbn;
      rewrite ?lookup_insert_ne by congruence; reflexivity.
  - destruct io as [[|] [|]]; cbn;
      rewrite ?lookup_delete_ne by congruence; reflexivity.
  - destruct io as [[|] [|]];
      cbv [AuthContext.loadAuthState tryCatch bind AuthContext.all2
           AuthContext.getItem throw];
      cbn [tokenKeyOk userIdKeyOk];
      destruct (storage s !! AUTH_TOKEN_KEY) as [[|c r]|];
      destruct (storage s !! USER_ID_KEY) as [[|c' r']|];
      try destruct net as [|[[|] b]]; reflexivity.
  - destruct data; reflexivity.
  - unfold PrivacyDashboardScreen.updateConsent. cbv [bind get].
    destruct (settings (privacy s)); [destruct putOk|]; reflexivity.
Qed.

(** X16: no sequence of handlers of the screens and of the provider
    touches a store entry other than the token key and the user-id key:
    whatever else is in AsyncStorage, the saved theme for one, is read
    back unchanged after any number of verifications, logouts and
    reloads. *)
Theorem handlers_touch_only_auth_keys (acts : list Action) (s : App) (k : string) :
  k <> AUTH_TOKEN_KEY -> k <> USER_ID_KEY ->
  storage (steps acts s) !! k = storage s !! k.
Proof.
  intros Ht Hu. revert s.
  induction acts as [|a acts IH]; intros s; cbn; [reflexivity|].
  unfold steps in IH. rewrite IH. now apply step_storage_other.
Qed.

Lemma handlers_touch_only_auth_keys_witness :
  ThemeContext.THEME_KEY <> AUTH_TOKEN_KEY /\ ThemeContext.THEME_KEY <> USER_ID_KEY
  /\ storage (steps [HandleVerification (Some (Captured "AAAA"))
                       (accept true "tok-1" None) (mkIO true true);
                     Logout (mkIO true true)] initialApp)
       !! ThemeContext.THEME_KEY = None.
Proof.
  split; [discriminate|]. split; [discriminate|].
  rewrite (handlers_touch_only_auth_keys _ initialApp ThemeContext.THEME_KEY);
    [reflexivity | discriminate | discriminate].
Defined.

(** X17: initializeApp of the root component reads the token under the
    key "authToken", which no handler writes: starting from a store
    without that key, after any sequence of handlers (successful
    verifications included) initializeApp sends no verify-token request
    and leaves its isAuthenticated as it was; it never rejects and ends
    with isLoading false. *)
Theorem initializeApp_never_sees_login (s : App) (acts : list Action)
    (themeRead authRead : bool) (net : Net) (root : RootApp.RootState) :
  storage s !! RootApp.authTokenKey = None ->
  let s1 := steps acts s in
  let out := RootApp.initializeApp themeRead authRead net root s1 in
  Component.resultOf out = Resolved tt
  /\ RootApp.isLoading (Component.stateOf out) = false
  /\ RootApp.isAuthenticated (Component.stateOf out) = RootApp.isAuthenticated root
  /\ verifyTokenCalls (Component.appOf out) = verifyTokenCalls s1.
Proof.
  intros H0 s1.
  assert (Hk : storage s1 !! RootApp.authTokenKey = None).
  { subst s1. rewrite handlers_touch_only_auth_keys by discriminate. exact H0. }
  clearbody s1. unfold verifyTokenCalls.
  destruct themeRead, authRead;
    cbv [RootApp.initializeApp Component.tryFinally Component.tryCatch
         Component.bind Component.lift AuthContext.getItem throw
         Component.resultOf Component.stateOf Component.appOf];
    destruct (storage s1 !! ThemeContext.THEME_KEY) as [[|c r]|];
    cbn; rewrite ?Hk; cbn; rewrite ?countIf_app; cbn; repeat split; lia.
Qed.

Lemma initializeApp_never_sees_login_witness :
  storage initialApp !! RootApp.authTokenKey = None
  /\ isAuthenticated
       (auth (steps [HandleVerification (Some (Captured "AAAA"))
                       (accept true "tok-1" None) (mkIO true true)] initialApp))
     = true
  /\ RootApp.isAuthenticated
       (Component.stateOf
          (RootApp.initializeApp true true (accept true "tok-1" None)
             RootApp.initialRoot
             (steps [HandleVerification (Some (Captured "AAAA"))
                       (accept true "tok-1" None) (mkIO true true)] initialApp)))
     = false.
Proof.
  split; [reflexivity|]. split; [reflexivity|].
  destruct (initializeApp_never_sees_login initialApp
              [HandleVerification (Some (Captured "AAAA"))
                 (accept true "tok-1" None) (mkIO true true)]
              true true (accept true "tok-1" None) RootApp.initialRoot)
    as (_ & _ & H & _); [reflexivity|].
  exact H.
Defined.

End StoreFacts.

Module ThemeFacts.

Import Client Samples Observe.
Import ThemeContext.

(** X18: toggleTheme never rejects and always switches the theme state,
    to "dark" from "light" and to "light" from anything else, also when
    the write to the store fails: then the store keeps what it had, so
    state and store disagree; when the write succeeds the store holds the
    new theme.  The provider state is never touched. *)
Theorem toggleTheme_outcome (writeResolves : bool) (theme : string) (s : App) :
  let out := toggleTheme writeResolves theme s in
  Component.resultOf out = Resolved tt
  /\ Component.stateOf out = (if String.eqb theme "light" then "dark" else "light")
  /\ storage (Component.appOf out) =
       (if writeResolves
        then <[THEME_KEY := Component.stateOf out]> (storage s)
        else storage s)
  /\ auth (Component.appOf out) = auth s.
Proof.
  destruct writeResolves; cbn; repeat split.
Qed.

(** X19: toggling twice gives back "light" and "dark" unchanged, whether
    or not the writes succeed; from any other theme it ends on "dark". *)
Theorem toggleTheme_twice (w1 w2 : bool) (theme : string) (s : App) :
  let out1 := toggleTheme w1 theme s in
  let out2 := toggleTheme w2 (Component.stateOf out1) (Component.appOf out1) in
  Component.stateOf out2 = (if String.eqb theme "light" then "light" else "dark").
Proof.
  destruct w1, w2; cbn; destruct (String.eqb theme "light"); reflexivity.
Qed.

(** X20: a theme saved by toggleTheme is read back by loadTheme: after a
    toggle whose write succeeds, loadTheme run from any theme state ends
    on the toggled theme. *)
Theorem toggle_then_load (theme stale : string) (s : App) :
  let out1 := toggleTheme true theme s in
  let out2 := loadTheme true stale (Component.appOf out1) in
  Component.stateOf out2 = Component.stateOf out1
  /\ Component.resultOf out2 = Resolved tt.
Proof.
  cbv [toggleTheme loadTheme Component.bind Component.getState Component.setState
       Component.tryCatch Component.lift AuthContext.setItem AuthContext.getItem
       Component.stateOf Component.appOf Component.resultOf modify].
  cbn. rewrite lookup_insert_eq.
  destruct (String.eqb theme "light"); cbn; split; reflexivity.
Qed.

(** X21: the root component picks up the theme that toggleTheme saved:
    after a toggle whose write succeeded, initializeApp with a working
    theme read sets isDarkMode exactly when the toggled theme is dark,
    whatever happens to its token read and its request. *)
Theorem toggle_then_initializeApp (theme : string) (authRead : bool) (net : Net)
    (root : RootApp.RootState) (s : App) :
  let out1 := toggleTheme true theme s in
  let out2 := RootApp.initializeApp true authRead net root (Component.appOf out1) in
  RootApp.isDarkMode (Component.stateOf out2) = isDark (Component.stateOf out1)
  /\ RootApp.isLoading (Component.stateOf out2) = false.
Proof.
  cbv [toggleTheme RootApp.initializeApp Component.bind Component.getState
       Component.setState Component.tryCatch Component.tryFinally Component.lift
       AuthContext.setItem AuthContext.getItem Component.stateOf Component.appOf
       Component.resultOf modify throw].
  destruct (String.eqb theme "light"); cbn; rewrite lookup_insert_eq; cbn;
    destruct authRead; cbn; rewrite ?lookup_insert_ne by discriminate;
    try (destruct (storage s !! RootApp.authTokenKey) as [[|c r]|]; cbn);
    try (destruct net as [|[o b]]; cbn); split; reflexivity.
Qed.

(** X22: loadTheme takes over any non-empty saved string without
    checking it.  When the saved value is neither "light" nor "dark" the
    loaded theme is that value and is not dark, and the first toggle then
    selects "light", which is not dark either. *)
Theorem unknown_saved_theme (c : ascii) (saved stale : string) (w : bool) (s : App) :
  storage s !! THEME_KEY = Some (String c saved) ->
  String c saved <> "light" ->
  String c saved <> "dark" ->
  let out1 := loadTheme true stale s in
  let out2 := toggleTheme w (Component.stateOf out1) (Component.appOf out1) in
  Component.stateOf out1 = String c saved
  /\ isDark (Component.stateOf out1) = false
  /\ Component.stateOf out2 = "light"
  /\ isDark (Component.stateOf out2) = false.
Proof.
  intros Hs Hl Hd.
  cbv [toggleTheme loadTheme Component.bind Component.getState Component.setState
       Component.tryCatch Component.lift AuthContext.setItem AuthContext.getItem
       Component.stateOf Component.appOf Component.resultOf modify].
  rewrite Hs. cbn [fst snd].
  assert (El : String.eqb (String c saved) "light" = false)
    by (apply String.eqb_neq; exact Hl).
  assert (Ed : isDark (String c saved) = false)
    by (apply String.eqb_neq; exact Hd).
  rewrite El. destruct w; cbn; repeat split; assumption || reflexivity.
Qed.

Lemma unknown_saved_theme_witness :
  storage (set_storage {[ THEME_KEY := "blue" ]} initialApp) !! THEME_KEY = Some "blue"
  /\ Component.stateOf
       (toggleTheme true
          (Component.stateOf
             (loadTheme true "light" (set_storage {[ THEME_KEY := "blue" ]} initialApp)))
          (Component.appOf
             (loadTheme true "light" (set_storage {[ THEME_KEY := "blue" ]} initialApp))))
     = "light".
Proof.
  split; [reflexivity|].
  destruct (unknown_saved_theme "b"%char "lue" "light" true
              (set_storage {[ THEME_KEY := "blue" ]} initialApp))
    as (_ & _ & H & _); [reflexivity | discriminate | discriminate |].
  exact H.
Defined.

End ThemeFacts.

(** ** The home screen: speech results and the message list *)

Module HomeFacts.

Import Client Samples Observe.
Import HomeScreen.

(** X23: a speech result whose first entry is a non-empty command never
    rejects and ends with isProcessing false.  The messages so far are
    kept, the command is appended as a user message, and after it comes
    at most one message, an assistant message; when processTextCommand
    rejects or resolves to null that message is the fixed "unknown error"
    text. *)
Theorem onSpeechResults_outcome (c : ascii) (cmd : string) (rest : list string)
    (outcome : Promise CommandJson) (h : HomeState) (s : App) :
  let out := onSpeechResults (Some (String c cmd :: rest)) outcome h s in
  Component.resultOf out = Resolved tt
  /\ isProcessing (Component.stateOf out) = false
  /\ isListening (Component.stateOf out) = isListening h
  /\ exists tail,
       messages (Component.stateOf out)
         = (messages h ++ mkMessage (String c cmd) true :: tail)%list
       /\ (length tail <= 1)%nat
       /\ Forall (fun m => isUser m = false) tail
       /\ match outcome with
          | Resolved (CommandObject _) => True
          | _ => tail = [mkMessage UNKNOWN false]
          end.
Proof.
  destruct outcome as [[|[[|c' r']|]]|e]; cbn; repeat split;
    eexists; rewrite <- ?app_assoc; cbn; (split; [reflexivity|]); cbn;
    repeat split; auto.
Qed.

(** X24: a speech result without a value, with an empty list, or whose
    first entry is the empty string is ignored: no message is added,
    nothing is processed, nothing is logged. *)
Theorem onSpeechResults_ignored (rest : list string)
    (outcome : Promise CommandJson) (h : HomeState) (s : App) :
  onSpeechResults None outcome h s = (Resolved tt, h, s)
  /\ onSpeechResults (Some []) outcome h s = (Resolved tt, h, s)
  /\ onSpeechResults (Some ("" :: rest)) outcome h s = (Resolved tt, h, s).
Proof. repeat split. Qed.

End HomeFacts.

(** ** The indicators of the face registration screen *)

Module IndicatorFacts.

Import Client Samples Observe FaceRegistrationScreen.
Import Indicators.
Local Open Scope Q_scope.

Lemma knownScore_accumulate (a b : bool) : knownScore (accumulate a b).
Proof.
  unfold knownScore. destruct a, b; vm_compute; tauto.
Qed.

Lemma step_reg_cases (a : Action) (s : App) :
  (knownScore (qualityScore (reg s)) -> knownScore (qualityScore (reg (step a s))))
  /\ ((registrationStep (reg s) <= 3)%nat
      -> (registrationStep (reg (step a s)) <= 3)%nat).
Proof.
  destruct a as [faces|camera net| |camera net|camera net io|io|io net|data|putOk cat v];
    unfold step, handler.
  - destruct faces as [|f l]; cbn; split; auto.
    + intros _. left. reflexivity.
    + intros _. apply knownScore_accumulate.
  - unfold takePicture.
    destruct camera as [[b|e]|]; [ | | cbn; auto].
    + destruct net as [|[o [|[|[[[|]|] tk er]]]]]; cbn;
        destruct (isFaceCentered (reg s)); cbn; split; auto; intros; lia.
    + cbn. destruct (isFaceCentered (reg s)); cbn; split; auto; intros; lia.
  - cbn. split; intros _; [left; reflexivity | lia].
  - unfold AuthScreen.handleRegistration.
    destruct camera as [[b|e]|]; [ | cbn; auto | cbn; auto].
    destruct net as [|[o [|[|[[[|]|] tk er]]]]]; cbn; auto.
  - unfold AuthScreen.handleVerification.
    destruct camera as [[b|e]|]; [ | cbn; auto | cbn; auto].
    destruct io as [[|] [|]];
      destruct net as [|[o [|[|[[[|]|] [[|c r]|] er]]]]]; cbn; auto.
  - destruct io as [[|] [|]]; cbn; auto.
  - destruct io as [[|] [|]];
      cbv [AuthContext.loadAuthState tryCatch bind AuthContext.all2
           AuthContext.getItem throw];
      cbn [tokenKeyOk userIdKeyOk];
      destruct (storage s !! AUTH_TOKEN_KEY) as [[|c r]|];
      destruct (storage s !! USER_ID_KEY) as [[|c' r']|];
      try destruct net as [|[[|] b]]; cbn; auto.
  - destruct data; cbn; auto.
  - unfold PrivacyDashboardScreen.updateConsent. cbv [bind get].
    destruct (settings (privacy s)); [destruct putOk|]; cbn; auto.
Qed.

Lemma reachable_reg (acts : list Action) (s : App) :
  knownScore (qualityScore (reg s)) -> (registrationStep (reg s) <= 3)%nat ->
  knownScore (qualityScore (reg (steps acts s)))
  /\ (registrationStep (reg (steps acts s)) <= 3)%nat.
Proof.
  revert s. induction acts as [|a acts IH]; intros s Hq Hn; cbn; [auto|].
  apply IH; now apply step_reg_cases.
Qed.

Lemma Qle_bool_proper (t q q' : Q) : q == q' -> Qle_bool t q = Qle_bool t q'.
Proof.
  intros H. destruct (Qle_bool t q) eqn:E1, (Qle_bool t q') eqn:E2; try reflexivity.
  - apply Qle_bool_iff in E1. rewrite H in E1. apply Qle_bool_iff in E1. congruence.
  - apply Qle_bool_iff in E2. rewrite <- H in E2. apply Qle_bool_iff in E2. congruence.
Qed.

Lemma dots_proper (r : RegState) (q : Q) :
  qualityScore r == q ->
  renderQualityIndicator r = map (fun t => Qle_bool t q) dots.
Proof.
  intros H. unfold renderQualityIndicator, dots. cbn.
  now rewrite !(Qle_bool_proper _ _ _ H).
Qed.

(** On doubles the five comparisons decide as on the rationals, for each
    of the four scores checkFaceQuality can produce. *)
Lemma binary64_dots_agree (a b : bool) :
  binary64Dots a b = map (fun t => Qle_bool t (accumulate a b)) dots.
Proof. destruct a, b; vm_compute; reflexivity. Qed.

(** X25: in every state the client can reach, the quality indicator
    lights none, one, three or all five of its dots, never two or four:
    the score is 0, 0.3, 0.6, 0.7 or 1, and the scores 0.6 (centred, wrong
    size) and 0.7 (right size, off centre) light the same three dots. *)
Theorem quality_dots_reachable (acts : list Action) :
  let r := reg (steps acts initialApp) in
  (qualityScore r == 0
   /\ renderQualityIndicator r = [false; false; false; false; false])
  \/ (qualityScore r == 3 # 10
      /\ renderQualityIndicator r = [true; false; false; false; false])
  \/ (qualityScore r == 6 # 10
      /\ renderQualityIndicator r = [true; true; true; false; false])
  \/ (qualityScore r == 7 # 10
      /\ renderQualityIndicator r = [true; true; true; false; false])
  \/ (qualityScore r == 1
      /\ renderQualityIndicator r = [true; true; true; true; true]).
Proof.
  intros r.
  destruct (reachable_reg acts initialApp) as [Hq _];
    [left; reflexivity | cbn; lia |].
  fold r in Hq. destruct Hq as [H|[H|[H|[H|H]]]];
    [left | right; left | right; right; left | right; right; right; left
    | right; right; right; right];
    (split; [exact H | rewrite (dots_proper _ _ H); reflexivity]).
Qed.

(** X26: in every state the client can reach, registrationStep is at
    most 3 and the step indicator lights exactly registrationStep + 1 of
    its four marks, so at least the first one. *)
Theorem step_marks_reachable (acts : list Action) :
  let r := reg (steps acts initialApp) in
  (registrationStep r <= 3)%nat
  /\ lit (renderStepIndicator r) = S (registrationStep r).
Proof.
  intros r.
  destruct (reachable_reg acts initialApp) as [_ Hn];
    [left; reflexivity | cbn; lia |].
  fold r in Hn. split; [exact Hn|].
  unfold renderStepIndicator, lit, stepMarks.
  destruct (registrationStep r) as [|[|[|[|n]]]]; try reflexivity. lia.
Qed.

End IndicatorFacts.

(** ** What holds after every handler *)

Module HandlerFacts.

Import Client Samples Observe FaceRegistrationScreen.

Lemma step_busy_flags (a : Action) (s : App) :
  isRegistering (reg s) = false -> isProcessing (authScreen s) = false ->
  saving (privacy s) = false ->
  isRegistering (reg (step a s)) = false
  /\ isProcessing (authScreen (step a s)) = false
  /\ saving (privacy (step a s)) = false.
Proof.
  intros Hr Hp Hs.
  destruct a as [faces|camera net| |camera net|camera net io|io|io net|data|putOk cat v];
    unfold step, handler.
  - destruct faces; cbn; auto.
  - unfold takePicture.
    destruct camera as [[b|e]|]; [ | | cbn; auto].
    + destruct net as [|[o [|[|[[[|]|] tk er]]]]]; cbn;
        destruct (isFaceCentered (reg s)); cbn; auto.
    + cbn. destruct (isFaceCentered (reg s)); cbn; auto.
  - cbn. auto.
  - unfold AuthScreen.handleRegistration.
    destruct camera as [[b|e]|]; [ | cbn; auto | cbn; auto].
    destruct net as [|[o [|[|[[[|]|] tk er]]]]]; cbn; auto.
  - unfold AuthScreen.handleVerification.
    destruct camera as [[b|e]|]; [ | cbn; auto | cbn; auto].
    destruct io as [[|] [|]];
      destruct net as [|[o [|[|[[[|]|] [[|c r]|] er]]]]]; cbn; auto.
  - destruct io as [[|] [|]]; cbn; auto.
  - destruct io as [[|] [|]];
      cbv [AuthContext.loadAuthState tryCatch bind AuthContext.all2
           AuthContext.getItem throw];
      cbn [tokenKeyOk userIdKeyOk];
      destruct (storage s !! AUTH_TOKEN_KEY) as [[|c r]|];
      destruct (storage s !! USER_ID_KEY) as [[|c' r']|];
      try destruct net as [|[[|] b]]; cbn; auto.
  - destruct data; cbn; auto.
  - unfold PrivacyDashboardScreen.updateConsent. cbv [bind get].
    destruct (settings (privacy s)); [destruct putOk|]; cbn; auto.
Qed.

(** X27: no handler leaves a busy flag set.  In every state the client
    can reach, isRegistering of the registration screen, isProcessing of
    the authentication screen and saving of the privacy dashboard are all
    false: each handler clears its flag on every path, failures of the
    camera, the network and the store included. *)
Theorem busy_flags_cleared (acts : list Action) :
  isRegistering (reg (steps acts initialApp)) = false
  /\ isProcessing (authScreen (steps acts initialApp)) = false
  /\ saving (privacy (steps acts initialApp)) = false.
Proof.
  assert (H : forall s,
             isRegistering (reg s) = false -> isProcessing (authScreen s) = false ->
             saving (privacy s) = false ->
             isRegistering (reg (steps acts s)) = false
             /\ isProcessing (authScreen (steps acts s)) = false
             /\ saving (privacy (steps acts s)) = false).
  { induction acts as [|a acts IH]; intros s Hr Hp Hs; cbn; [auto|].
    destruct (step_busy_flags a s Hr Hp Hs) as (Hr' & Hp' & Hs').
    now apply IH. }
  now apply H.
Qed.

(** X28: no handler sends more than one request to the face endpoints
    (there is no retry inside a handler), and the detection callback, the
    reset, logout, loadAuthState and the privacy handlers send none. *)
Theorem at_most_one_face_request (a : Action) (s : App) :
  (matcherCalls (step a s) <= S (matcherCalls s))%nat
  /\ match a with
     | TakePicture _ _ | HandleRegistration _ _ | HandleVerification _ _ _ => True
     | _ => matcherCalls (step a s) = matcherCalls s
     end.
Proof.
  unfold matcherCalls.
  destruct a as [faces|camera net| |camera net|camera net io|io|io net|data|putOk cat v];
    unfold step, handler.
  - destruct faces; cbn; rewrite ?countIf_app; cbn; split; lia.
  - unfold takePicture.
    destruct camera as [[b|e]|]; [ | | cbn; split; [lia | exact I]].
    + destruct net as [|[o [|[|[[[|]|] tk er]]]]]; cbn;
        destruct (isFaceCentered (reg s)); cbn; rewrite ?countIf_app; cbn;
        (split; [lia | exact I]).
    + cbn. destruct (isFaceCentered (reg s)); cbn; rewrite ?countIf_app; cbn;
        (split; [lia | exact I]).
  - cbn. split; lia.
  - unfold AuthScreen.handleRegistration.
    destruct camera as [[b|e]|];
      [ destruct net as [|[o [|[|[[[|]|] tk er]]]]] | | ];
      cbn; rewrite ?countIf_app; cbn; (split; [lia | exact I]).
  - unfold AuthScreen.handleVerification.
    destruct camera as [[b|e]|];
      [ destruct io as [[|] [|]];
        destruct net as [|[o [|[|[[[|]|] [[|c r]|] er]]]]] | | ];
      cbn; rewrite ?countIf_app; cbn; (split; [lia | exact I]).
  - destruct io as [[|] [|]]; cbn; rewrite ?countIf_app; cbn; split; lia.
  - destruct io as [[|] [|]];
      cbv [AuthContext.loadAuthState tryCatch bind AuthContext.all2
           AuthContext.getItem throw];
      cbn [tokenKeyOk userIdKeyOk];
      destruct (storage s !! AUTH_TOKEN_KEY) as [[|c r]|];
      destruct (storage s !! USER_ID_KEY) as [[|c' r']|];
      try destruct net as [|[[|] b]]; cbn; rewrite ?countIf_app; cbn; split; lia.
  - destruct data; cbn; rewrite ?countIf_app; cbn; split; lia.
  - unfold PrivacyDashboardScreen.updateConsent. cbv [bind get].
    destruct (settings (privacy s)); [destruct putOk|]; cbn;
      rewrite ?countIf_app; cbn; split; lia.
Qed.

(** X29: loadPrivacySettings always ends with loading false and sends
    nothing to the face endpoints.  With an answer it takes the answer as
    the settings and shows no alert; when the request fails it keeps the
    settings it had, null at first, and shows one alert. *)
Theorem loadPrivacySettings_outcome (data : option PrivacySettings) (s : App) :
  let s' := step (LoadPrivacySettings data) s in
  loading (privacy s') = false
  /\ saving (privacy s') = saving (privacy s)
  /\ match data with
     | Some d => settings (privacy s') = Some d /\ alerts s' = alerts s
     | None => settings (privacy s') = settings (privacy s)
               /\ alerts s' = S (alerts s)
     end.
Proof.
  unfold alerts. destruct data; cbn; rewrite ?countIf_app; cbn; repeat split; lia.
Qed.

End HandlerFacts.
